(** * Octogram: a shallow embedding of [bot.js]

    The bot queries the energy provider (token, device, telemetry,
    account, product, consumption), sums interval readings, resolves the
    current tariff and renders one status message.  This file embeds the
    functions of [bot.js] one by one and proves the properties the
    specification states about them.

    Layout: the language runtime the code relies on (strings, arrays,
    numbers, dates), the provider and console as explicit state, the
    functions of [bot.js] in source order, then the theorems. *)

From Stdlib Require Import ZArith Floats String Ascii List Lia Bool.
From Stdlib Require Import DecimalString Permutation.
From stdpp Require Import gmap strings.
Import ListNotations.

Set Warnings "-inexact-float".
Local Open Scope string_scope.
Local Open Scope Z_scope.

(** ** Strings and arrays of the runtime *)

Module JsString.

(** [s.split(sep)] for a one-character separator: the pieces between
    the occurrences of [sep]; the result is never empty (the empty
    string splits to one empty piece). *)
Fixpoint split (sep : ascii) (s : string) : list string :=
  match s with
  | EmptyString => [EmptyString]
  | String c rest =>
      if Ascii.eqb c sep then EmptyString :: split sep rest
      else match split sep rest with
           | piece :: pieces => String c piece :: pieces
           | [] => [String c EmptyString]
           end
  end.

(** [parts.join(sep)]. *)
Definition join (sep : string) (parts : list string) : string :=
  String.concat sep parts.

(** [arr.slice(start, end)]: negative indices count from the end, both
    bounds are clamped to the array, an empty range gives []. *)
Definition slice {A} (start stop : Z) (arr : list A) : list A :=
  let len := Z.of_nat (List.length arr) in
  let k := if start <? 0 then Z.max (len + start) 0 else Z.min start len in
  let final := if stop <? 0 then Z.max (len + stop) 0 else Z.min stop len in
  firstn (Z.to_nat (final - k)) (skipn (Z.to_nat k) arr).

(** [arr[i]]: [None] stands for [undefined] (index out of range). *)
Definition index {A} (arr : list A) (i : Z) : option A :=
  if i <? 0 then None else nth_error arr (Z.to_nat i).

(** A template hole [${v}] filled with a possibly undefined string. *)
Definition show_undefined (v : option string) : string :=
  match v with Some s => s | None => "undefined" end.

Fixpoint repeat_char (c : ascii) (n : nat) : string :=
  match n with O => EmptyString | S n' => String c (repeat_char c n') end.

Fixpoint take (n : nat) (s : string) : string :=
  match n, s with
  | S n', String c rest => String c (take n' rest)
  | _, _ => EmptyString
  end.

Fixpoint drop (n : nat) (s : string) : string :=
  match n, s with
  | S n', String _ rest => drop n' rest
  | _, _ => s
  end.

(** Decimal digits of a natural number, ["0"] for zero. *)
Definition digits (n : Z) : string :=
  NilZero.string_of_uint (N.to_uint (Z.to_N n)).

End JsString.

(** ** Numbers: IEEE-754 binary64, as the runtime has them *)

Module JsNumber.
Import JsString.

Definition number := float.

Definition NaN : number := PrimFloat.nan.

(** The nearest binary64 to the rational [p / q], [p > 0], [q > 0]
    (ties to even): the quotient is computed with more than 64
    significant bits and a sticky bit, then rounded once. *)
Definition round_ratio (neg : bool) (p q : Z) : number :=
  let k := Z.max 0 (66 + Z.log2 q - Z.log2 p) in
  let num := p * 2 ^ k in
  let m := 2 * (num / q) + (if num mod q =? 0 then 0 else 1) in
  SF2Prim (binary_normalize prec emax (if neg then - m else m) (- k - 1) neg).

Definition is_digit (c : ascii) : bool :=
  let n := nat_of_ascii c in (48 <=? n)%nat && (n <=? 57)%nat.

Definition digit_value (c : ascii) : Z := Z.of_nat (nat_of_ascii c) - 48.

(** The leading run of decimal digits of [s] and what follows it. *)
Fixpoint span_digits (s : string) : list ascii * string :=
  match s with
  | String c rest =>
      if is_digit c then let (ds, tl) := span_digits rest in (c :: ds, tl)
      else ([], s)
  | EmptyString => ([], s)
  end.

Definition digits_value (ds : list ascii) : Z :=
  fold_left (fun acc c => 10 * acc + digit_value c) ds 0.

(** White space and line terminators of the language, in UTF-8:
    TAB LF VT FF CR SP, NBSP, the Zs category, LS, PS and the BOM. *)
Definition strip_one_space (s : string) : option string :=
  match s with
  | String c rest =>
      let n := nat_of_ascii c in
      if ((9 <=? n) && (n <=? 13) || (n =? 32))%nat then Some rest
      else match n, rest with
           | 194%nat, String d rest' =>
               if (nat_of_ascii d =? 160)%nat then Some rest' else None
           | 225%nat, String d (String e rest') =>
               if ((nat_of_ascii d =? 154) && (nat_of_ascii e =? 128))%nat
               then Some rest' else None
           | 226%nat, String d (String e rest') =>
               let x := nat_of_ascii d in
               let y := nat_of_ascii e in
               if ((x =? 128) && (((128 <=? y) && (y <=? 138))
                                  || (y =? 168) || (y =? 169) || (y =? 175))
                   || (x =? 129) && (y =? 159))%nat
               then Some rest' else None
           | 227%nat, String d (String e rest') =>
               if ((nat_of_ascii d =? 128) && (nat_of_ascii e =? 128))%nat
               then Some rest' else None
           | 239%nat, String d (String e rest') =>
               if ((nat_of_ascii d =? 187) && (nat_of_ascii e =? 191))%nat
               then Some rest' else None
           | _, _ => None
           end
  | EmptyString => None
  end.

Fixpoint trim_start_fuel (fuel : nat) (s : string) : string :=
  match fuel with
  | O => s
  | S fuel' =>
      match strip_one_space s with
      | Some rest => trim_start_fuel fuel' rest
      | None => s
      end
  end.

Definition trim_start (s : string) : string :=
  trim_start_fuel (String.length s) s.

(** The exponent part [e[+-]digits] at the head of [s], if complete. *)
Definition span_exponent (s : string) : option (Z * string) :=
  match s with
  | String c rest =>
      if Ascii.eqb c "e" || Ascii.eqb c "E" then
        let '(neg, body) :=
          match rest with
          | String "+" r => (false, r)
          | String "-" r => (true, r)
          | _ => (false, rest)
          end in
        match span_digits body with
        | ([], _) => None
        | (ds, tl) =>
            let v := digits_value ds in Some (if neg then - v else v, tl)
        end
      else None
  | EmptyString => None
  end.

(** The longest prefix of [s] that is a signed decimal literal
    ([Infinity], [ddd], [ddd.ddd], [.ddd], each with an optional
    exponent), as its value, together with the rest of [s]. *)
Definition span_decimal_literal (s : string) : option (number * string) :=
  let '(neg, body) :=
    match s with
    | String "+" r => (false, r)
    | String "-" r => (true, r)
    | _ => (false, s)
    end in
  if String.prefix "Infinity" body then
    Some (if neg then PrimFloat.neg_infinity else PrimFloat.infinity, drop 8 body)
  else
    let (ints, after_ints) := span_digits body in
    let '(fracs, after_frac) :=
      match after_ints with
      | String "." r => span_digits r
      | _ => ([], after_ints)
      end in
    match ints, fracs with
    | [], [] => None
    | _, _ =>
        let '(ex, tl) :=
          match span_exponent after_frac with
          | Some (e, tl) => (e, tl)
          | None => (0, after_frac)
          end in
        let mant := digits_value (ints ++ fracs) in
        let e10 := ex - Z.of_nat (List.length fracs) in
        let v :=
          if mant =? 0 then (if neg then PrimFloat.neg_zero else PrimFloat.zero)
          else if 0 <=? e10 then round_ratio neg (mant * 10 ^ e10) 1
               else round_ratio neg mant (10 ^ (- e10)) in
        Some (v, tl)
    end.

(** [parseFloat(s)]. *)
Definition parseFloat (s : string) : number :=
  match span_decimal_literal (trim_start s) with
  | Some (v, _) => v
  | None => NaN
  end.

(** The integer [n] for which [n / 10^f] is closest to [m * 2^e]
    ([m > 0]), the larger one when two are equally close. *)
Definition nearest_scaled (m e : Z) (f : nat) : Z :=
  let scaled := m * 10 ^ Z.of_nat f in
  if 0 <=? e then scaled * 2 ^ e
  else (2 * scaled + 2 ^ (- e)) / 2 ^ (- e + 1).

(** Steps 11.a to 11.d of [toFixed]: the digits of [n] with the
    decimal point [f] places from the right. *)
Definition place_point (n : Z) (f : nat) : string :=
  let m := digits n in
  if (f =? 0)%nat then m
  else
    let k := String.length m in
    let m := if (k <=? f)%nat then repeat_char "0" (f + 1 - k) ++ m else m in
    let k := String.length m in
    take (k - f) m ++ "." ++ drop (k - f) m.

(** What the file leaves to the host: the three conversions whose
    full definition is the engine's (shortest round-trip digits, the
    numeric-string grammar, the date-string grammar with its
    implementation-defined fallback) and the zone of the local clock.
    Theorems hold for every host; examples run on [reference_host]. *)
Class JsHost := {
  (** [Number::toString] on a finite non-zero number *)
  finite_toString : number -> string;
  (** [Number(s)] on a string *)
  StringToNumber : string -> number;
  (** [Date.parse(s)]: milliseconds since the epoch, [None] for NaN *)
  Date_parse : string -> option Z;
  (** minutes to add to UTC to get local time at a given instant *)
  utc_offset_minutes : Z -> Z
}.

Section ToString.
Context {host : JsHost}.

(** [String(x)] for a number [x]. *)
Definition Number_toString (x : number) : string :=
  match Prim2SF x with
  | S754_nan => "NaN"
  | S754_zero _ => "0"
  | S754_infinity false => "Infinity"
  | S754_infinity true => "-Infinity"
  | S754_finite _ _ _ => finite_toString x
  end.

(** [x.toFixed(f)] for [0 <= f <= 100]. *)
Definition toFixed (x : number) (f : nat) : string :=
  match Prim2SF x with
  | S754_finite neg m e =>
      let s := if neg then "-" else EmptyString in
      (* x >= 10^21, as m * 2^e >= 10^21 *)
      if (if 0 <=? e then 10 ^ 21 <=? Zpos m * 2 ^ e
          else 10 ^ 21 * 2 ^ (- e) <=? Zpos m)
      then s ++ finite_toString (PrimFloat.abs x)
      else s ++ place_point (nearest_scaled (Zpos m) e f) f
  | S754_zero _ => place_point 0 f
  | _ => Number_toString x
  end.
End ToString.

(** The integer part of a finite number, towards zero. *)
Definition truncate (x : number) : option Z :=
  match Prim2SF x with
  | S754_zero _ => Some 0
  | S754_finite neg m e =>
      let a := if 0 <=? e then Zpos m * 2 ^ e else Zpos m / 2 ^ (- e) in
      Some (if neg then - a else a)
  | _ => None
  end.

End JsNumber.

(** ** Loosely typed fields *)

(** A field of a provider record whose type the code does not fix:
    absent, [null], a number or a string. *)
Inductive jsval :=
| JUndefined
| JNull
| JNum (x : JsNumber.number)
| JStr (s : string).

(** ** Dates as the code uses them *)

Module JsDate.
Import JsString JsNumber.

(** A time value: milliseconds since the epoch, [None] for an invalid
    date (NaN). *)
Definition time_value := option Z.

Definition TimeClip (t : option Z) : time_value :=
  match t with
  | Some ms => if Z.abs ms <=? 8640000000000000 then Some ms else None
  | None => None
  end.

(** [new Date(v)]: a string is parsed, anything else is converted to a
    number ([null] to 0, [undefined] to NaN). *)
Definition Date_new {host : JsHost} (v : jsval) : time_value :=
  match v with
  | JStr s => TimeClip (Date_parse s)
  | JNum x => TimeClip (truncate x)
  | JNull => Some 0
  | JUndefined => None
  end.

(** [a > b] on two dates: on their time values, false if either is NaN. *)
Definition Date_gt (a b : time_value) : bool :=
  match a, b with
  | Some x, Some y => y <? x
  | _, _ => false
  end.

(** Proleptic Gregorian date of a day number (days since 1970-01-01). *)
Definition civil_from_days (z : Z) : Z * Z * Z :=
  let z := z + 719468 in
  let era := z / 146097 in
  let doe := z - era * 146097 in
  let yoe := (doe - doe / 1460 + doe / 36524 - doe / 146096) / 365 in
  let y := yoe + era * 400 in
  let doy := doe - (365 * yoe + yoe / 4 - yoe / 100) in
  let mp := (5 * doy + 2) / 153 in
  let d := doy - (153 * mp + 2) / 5 + 1 in
  let m := if mp <? 10 then mp + 3 else mp - 9 in
  (if m <=? 2 then y + 1 else y, m, d).

Definition days_from_civil (y m d : Z) : Z :=
  let y := if m <=? 2 then y - 1 else y in
  let era := y / 400 in
  let yoe := y - era * 400 in
  let doy := (153 * (if 2 <? m then m - 3 else m + 9) + 2) / 5 + d - 1 in
  let doe := yoe * 365 + yoe / 4 - yoe / 100 + doy in
  era * 146097 + doe - 719468.

(** moment's [zeroFill(number, targetLength)] without forced sign. *)
Definition zeroFill (n : Z) (len : nat) : string :=
  let a := digits (Z.abs n) in
  (if 0 <=? n then EmptyString else "-")
    ++ repeat_char "0" (len - String.length a) ++ a.

Definition ms_per_day : Z := 86400000.

(** [format("YYYY-MM-DD")] of the calendar day that contains [ms]. *)
Definition format_date (ms : Z) : string :=
  let '(y, m, d) := civil_from_days (ms / ms_per_day) in
  zeroFill y 4 ++ "-" ++ zeroFill m 2 ++ "-" ++ zeroFill d 2.

(** [format("HH:mm:ss")] of the time of day of [ms]. *)
Definition format_time (ms : Z) : string :=
  let s := (ms mod ms_per_day) / 1000 in
  zeroFill (s / 3600) 2 ++ ":" ++ zeroFill (s / 60 mod 60) 2
    ++ ":" ++ zeroFill (s mod 60) 2.

(** [moment(now).utc().format("YYYY-MM-DD HH:mm:ss UTC")]: the letters
    U, T, C are no format tokens and are copied. *)
Definition format_utc (now : Z) : string :=
  format_date now ++ " " ++ format_time now ++ " UTC".

(** [moment(now).subtract(days, "days").format("YYYY-MM-DD")]: the
    local calendar day of [now], moved back by [days]. *)
Definition format_local_date_minus {host : JsHost} (now days : Z) : string :=
  format_date (now + utc_offset_minutes now * 60000 - days * ms_per_day).

End JsDate.

Import JsString JsNumber JsDate.

(** [Number(v)]. *)
Definition Number {host : JsHost} (v : jsval) : number :=
  match v with
  | JUndefined => NaN
  | JNull => PrimFloat.zero
  | JNum x => x
  | JStr s => StringToNumber s
  end.

(** A template hole [${v}]. *)
Definition jsval_toString {host : JsHost} (v : jsval) : string :=
  match v with
  | JUndefined => "undefined"
  | JNull => "null"
  | JNum x => Number_toString x
  | JStr s => s
  end.

(** ** Errors, the console and the provider as explicit state *)

(** A thrown value: every value the code throws or receives from axios
    is an error object, of which the code reads [message]. *)
Record js_error := { error_name : string; message : string }.

Definition Error (msg : string) : js_error :=
  {| error_name := "Error"; message := msg |}.

Definition TypeError (msg : string) : js_error :=
  {| error_name := "TypeError"; message := msg |}.

(** Reading property [field] of [null] or of [undefined]. *)
Definition null_read (field : string) : js_error :=
  TypeError ("Cannot read properties of null (reading '" ++ field ++ "')").

Definition undefined_read (field : string) : js_error :=
  TypeError
    ("Cannot read properties of undefined (reading '" ++ field ++ "')").

Inductive stream := Stdout | Stderr.

Definition log_line : Type := stream * string.

(** *** Provider records, typed as the code reads them

    The responses have the shape of the provider's schema; [option]
    marks a value the provider may send as [null] (GraphQL) or leave
    out (REST), [jsval] a field whose type the code does not rely on.
    The fields the code never reads are left out.  The tariff table is
    the map from its own keys ([_A], [_B], ...) to the regional
    tariffs. *)

(** The body of a GraphQL response: [data] is [null] when the query
    failed as a whole. *)
Record graphql (D : Type) := { gql_data : option D }.
Arguments gql_data {D} _.

Record kraken_token := { token : string }.
Record token_data := { obtainKrakenToken : option kraken_token }.

Record smart_device := { deviceId : string }.
Record meter := { smartDevices : option (list smart_device) }.
Record meter_point_devices := { meters : option (list meter) }.
Record electricity_agreement := { meterPoint : option meter_point_devices }.
Record account_devices :=
  { electricityAgreements : option (list electricity_agreement) }.
Record account_data := { account : option account_devices }.

Record telemetry_reading :=
  { readAt : string; demand : jsval; telemetry_consumption : jsval }.
Record telemetry_data :=
  { smartMeterTelemetry : option (list telemetry_reading) }.

Record agreement := { tariff_code : string; valid_to : jsval }.
Record electricity_meter_point :=
  { meter_point_mpan : string; agreements : list agreement }.
Record property :=
  { electricity_meter_points : list electricity_meter_point }.
Record account_record := { properties : list property }.

Record payment_details :=
  { standard_unit_rate_inc_vat : number; standing_charge_inc_vat : number }.
Record region_tariff := { direct_debit_monthly : option payment_details }.
Record product_record :=
  { display_name : string;
    single_register_electricity_tariffs : gmap string region_tariff }.

Record interval_reading := { consumption : number }.
Record consumption_page := { results : list interval_reading }.

(** The [Authorization] header of a request; [Basic] carries the
    user-and-password string that the code sends in base64. *)
Inductive authorization :=
| Basic (userpass : string)
| JWT (bearer : string).

Record consumption_query :=
  { period_from : string; period_to : string; page_size : Z }.

(** The outcome of one axios call: the response body, or the error it
    rejects with (network fault, HTTP status outside 2xx). *)
Definition axios_result (A : Type) : Type := js_error + A.

(** The world outside the process: the provider's endpoints and the
    system clock, each a transition on an arbitrary state [W], so that
    two calls of one endpoint may answer differently.  An endpoint
    receives what the code puts into the request: the API key; the
    account number and the token; the device and the token; the account
    number and the credentials; the product code; the MPAN, the serial
    number, the credentials and the query parameters. *)
Record World (W : Type) := {
  post_obtainKrakenToken :
    string -> W -> axios_result (graphql token_data) * W;
  post_account_devices :
    string -> authorization -> W -> axios_result (graphql account_data) * W;
  post_smartMeterTelemetry :
    string -> authorization -> W ->
    axios_result (graphql telemetry_data) * W;
  get_account :
    string -> authorization -> W -> axios_result account_record * W;
  get_product : string -> W -> axios_result product_record * W;
  get_consumption :
    string -> string -> authorization -> consumption_query -> W ->
    axios_result consumption_page * W;
  (** [Date.now()], read by [moment()] *)
  clock : W -> Z * W
}.
Arguments post_obtainKrakenToken {W} _ _ _.
Arguments post_account_devices {W} _ _ _ _.
Arguments post_smartMeterTelemetry {W} _ _ _ _.
Arguments get_account {W} _ _ _ _.
Arguments get_product {W} _ _ _.
Arguments get_consumption {W} _ _ _ _ _ _.
Arguments clock {W} _ _.

(** [octopusConfig] and [process.env.OCTOPUS_ACCOUNT_NUMBER]. *)
Record Config := {
  baseURL : string;
  apiKey : string;
  mpan : string;
  serialNumber : string;
  OCTOPUS_ACCOUNT_NUMBER : string
}.

(** *** The monad of an async function: state, console, exceptions *)

Record state (W : Type) := { world : W; console : list log_line }.
Arguments world {W} _.
Arguments console {W} _.

Inductive completion (A : Type) :=
| Return (a : A)
| Throw (e : js_error).
Arguments Return {A} _.
Arguments Throw {A} _.

Definition M (W A : Type) : Type := state W -> completion A * state W.

Definition ret {W A} (a : A) : M W A := fun s => (Return a, s).

Definition throw {W A} (e : js_error) : M W A := fun s => (Throw e, s).

Definition bind {W A B} (m : M W A) (k : A -> M W B) : M W B :=
  fun s =>
    match m s with
    | (Return a, s') => k a s'
    | (Throw e, s') => (Throw e, s')
    end.

(** [try { body } catch (error) { handler }]. *)
Definition try_catch {W A} (body : M W A) (handler : js_error -> M W A)
  : M W A :=
  fun s =>
    match body s with
    | (Return a, s') => (Return a, s')
    | (Throw e, s') => handler e s'
    end.

Declare Scope js_scope.
Delimit Scope js_scope with js.
Notation "'let*' x ':=' m 'in' k" := (bind m (fun x => k))
  (at level 10, x name, m at level 100, k at level 200) : js_scope.
Notation "'exec' m 'then' k" := (bind m (fun _ => k))
  (at level 10, m at level 100, k at level 200) : js_scope.

(** The state after one more console line / with the world moved on. *)
Definition with_line {W} (s : state W) (line : log_line) : state W :=
  {| world := world s; console := console s ++ [line] |}.

Definition with_world {W} (s : state W) (w : W) : state W :=
  {| world := w; console := console s |}.

Definition emit {W} (line : log_line) : M W unit :=
  fun s => (Return tt, with_line s line).

(** [console.log(text)]. *)
Definition console_log {W} (text : string) : M W unit :=
  emit (Stdout, text).

(** [console.error(label, text)]: the arguments joined by a space. *)
Definition console_error {W} (label text : string) : M W unit :=
  emit (Stderr, label ++ " " ++ text).

(** [await axios.get(...)] / [await axios.post(...)]. *)
Definition await {W A} (call : W -> axios_result A * W) : M W A :=
  fun s =>
    let (r, w) := call (world s) in
    match r with
    | inr body => (Return body, with_world s w)
    | inl e => (Throw e, with_world s w)
    end.

(** [moment()]. *)
Definition moment {W} (env : World W) : M W Z :=
  fun s =>
    let (now, w) := clock env (world s) in
    (Return now, with_world s w).

(** [base.field] where [base] may be [null] / may be [undefined]. *)
Definition read_nullable {W A} (base : option A) (field : string) : M W A :=
  match base with
  | Some a => ret a
  | None => throw (null_read field)
  end.

Definition read_optional {W A} (base : option A) (field : string) : M W A :=
  match base with
  | Some a => ret a
  | None => throw (undefined_read field)
  end.

(** *** Property lookup on an object of a response

    [obj[key]] with a computed key, on a plain object parsed from JSON:
    the object's own property if it has one of that name, and otherwise
    what every plain object inherits from [Object.prototype], whose
    members are functions, and under [__proto__] the prototype itself. *)
Definition Object_prototype : list string :=
  [ "constructor"; "__defineGetter__"; "__defineSetter__"; "hasOwnProperty";
    "__lookupGetter__"; "__lookupSetter__"; "isPrototypeOf";
    "propertyIsEnumerable"; "toString"; "valueOf"; "__proto__";
    "toLocaleString" ].

Definition inherited (key : string) : bool :=
  existsb (String.eqb key) Object_prototype.

Inductive looked_up (A : Type) :=
| Own (a : A)
| Inherited
| Undefined.
Arguments Own {A} _.
Arguments Inherited {A}.
Arguments Undefined {A}.

Definition get_property {A} (obj : gmap string A) (key : string)
  : looked_up A :=
  match obj !! key with
  | Some a => Own a
  | None => if inherited key then Inherited else Undefined
  end.

(** [base.field] where [base] was looked up: a read on [undefined]
    throws; a member of [Object.prototype] has none of the fields of a
    response, and the read gives [undefined]. *)
Definition read_looked_up {W A B} (base : looked_up A) (get : A -> option B)
  (field : string) : M W (option B) :=
  match base with
  | Own a => ret (get a)
  | Inherited => ret None
  | Undefined => throw (undefined_read field)
  end.

(** ** The functions of [bot.js] *)

Section Bot.
Context {host : JsHost}.
Context {W : Type} (env : World W).
Variable octopusConfig : Config.

Local Open Scope js_scope.

Definition newline : string := String "010" EmptyString.

(** [formatTimestamp()]. *)
Definition formatTimestamp : M W string :=
  let* now := moment env in
  ret (format_utc now).

(** [formatUsageData(usage, cost)]. *)
Definition formatUsageData (usage cost : number) : string :=
  "Usage: " ++ toFixed usage 2 ++ " kWh" ++ newline
    ++ "Cost: £" ++ toFixed cost 2.

(** [getKrakenToken()]. *)
Definition getKrakenToken : M W string :=
  exec console_log "🔑 Obtaining Kraken token..." then
  try_catch
    (let* response :=
       await (post_obtainKrakenToken env (apiKey octopusConfig)) in
     exec console_log "✅ Kraken token obtained successfully" then
     let* data := read_nullable (gql_data response) "obtainKrakenToken" in
     let* obtained := read_nullable (obtainKrakenToken data) "token" in
     ret (token obtained))
    (fun error =>
       exec console_error "❌ Error obtaining Kraken token:" (message error)
       then throw error).

(** [getMeterGuid(token)]: the first smart device of the first meter
    of the first active agreement. *)
Definition getMeterGuid (token : string) : M W string :=
  exec console_log "🔍 Looking up meter GUID..." then
  try_catch
    (let* response :=
       await (post_account_devices env
                (OCTOPUS_ACCOUNT_NUMBER octopusConfig) (JWT token)) in
     let* data := read_nullable (gql_data response) "account" in
     let* acc := read_nullable (account data) "electricityAgreements" in
     match electricityAgreements acc with
     | None | Some [] =>
         throw (Error "No active electricity agreements found")
     | Some (agreement0 :: _) =>
         let* point := read_nullable (meterPoint agreement0) "meters" in
         match meters point with
         | None | Some [] => throw (Error "No active meters found")
         | Some (meter0 :: _) =>
             match smartDevices meter0 with
             | None | Some [] => throw (Error "No smart devices found")
             | Some (device0 :: _) =>
                 exec console_log "✅ Meter GUID found successfully" then
                 ret (deviceId device0)
             end
         end
     end)
    (fun error =>
       exec console_error "❌ Error getting meter GUID:" (message error)
       then throw error).

(** The [try] block of [getLiveUsage]. *)
Definition getLiveUsage_try : M W number :=
  let* token := getKrakenToken in
  let* meterGuid := getMeterGuid token in
  let* response :=
    await (post_smartMeterTelemetry env meterGuid (JWT token)) in
  let* data := read_nullable (gql_data response) "smartMeterTelemetry" in
  match smartMeterTelemetry data with
  | None | Some [] => throw (Error "No telemetry data available")
  | Some (telemetry :: _) =>
      match demand telemetry with
      | JNull =>
          exec console_log "⚠️ No demand data available, returning 0" then
          ret PrimFloat.zero
      | present =>
          exec console_log
            ("✅ Live usage data received: "
               ++ jsval_toString present ++ "W") then
          ret (Number present)
      end
  end.

(** [getLiveUsage()]. *)
Definition getLiveUsage : M W number :=
  exec console_log "📊 Fetching live usage data..." then
  try_catch getLiveUsage_try
    (fun error =>
       exec console_error "❌ Error fetching live usage:" (message error)
       then ret PrimFloat.zero).

(** The callback of the [reduce] in [getTariffInfo]. *)
Definition later_agreement (latest : option agreement) (current : agreement)
  : option agreement :=
  match latest with
  | None => Some current
  | Some l =>
      if Date_gt (Date_new (valid_to current)) (Date_new (valid_to l))
      then Some current
      else latest
  end.

(** [mpanPoint.agreements.reduce(..., null)]; [None] is [null]. *)
Definition currentAgreement (agreements : list agreement)
  : option agreement :=
  fold_left later_agreement agreements None.

Definition has_mpan (e : electricity_meter_point) : bool :=
  String.eqb (meter_point_mpan e) (mpan octopusConfig).

(** Step 2 of [getTariffInfo]: product code and region letter. *)
Definition parseTariffCode (tariffCode : string) : string * option string :=
  let tariffParts := split "-" tariffCode in
  let productCode := join "-" (slice 2 (-1) tariffParts) in
  let regionLetter :=
    index tariffParts (Z.of_nat (List.length tariffParts) - 1) in
  (productCode, regionLetter).

Record tariff_info :=
  { name : string; unit_rate : string; standing_charge : string }.

(** The [try] block of [getTariffInfo]. *)
Definition getTariffInfo_try : M W tariff_info :=
  let* accountRes :=
    await (get_account env (OCTOPUS_ACCOUNT_NUMBER octopusConfig)
             (Basic (apiKey octopusConfig ++ ":"))) in
  match
    List.find (fun p => existsb has_mpan (electricity_meter_points p))
      (properties accountRes)
  with
  | None =>
      throw (Error ("MPAN " ++ mpan octopusConfig
                      ++ " not found in any property"))
  | Some propertyWithMpan =>
      let electricityPoints := electricity_meter_points propertyWithMpan in
      let* mpanPoint :=
        read_optional (List.find has_mpan electricityPoints) "agreements" in
      let* current :=
        read_nullable (currentAgreement (agreements mpanPoint))
          "tariff_code" in
      let '(productCode, regionLetter) :=
        parseTariffCode (tariff_code current) in
      let* productRes := await (get_product env productCode) in
      let tariffs := single_register_electricity_tariffs productRes in
      let regionTariff :=
        get_property tariffs ("_" ++ show_undefined regionLetter) in
      let* details :=
        read_looked_up regionTariff direct_debit_monthly
          "direct_debit_monthly" in
      let* details := read_optional details "standard_unit_rate_inc_vat" in
      ret {| name := display_name productRes;
             unit_rate :=
               toFixed (standard_unit_rate_inc_vat details / 100)%float 4;
             standing_charge :=
               toFixed (standing_charge_inc_vat details / 100)%float 2 |}
  end.

(** [getTariffInfo()]. *)
Definition getTariffInfo : M W tariff_info :=
  try_catch getTariffInfo_try
    (fun error =>
       exec console_error "Error fetching tariff info:" (message error)
       then throw error).

Record consumption_window := { usage : number; cost : number }.

(** [response.data.results.reduce((sum, reading) => sum +
    reading.consumption, 0)]. *)
Definition totalUsage (readings : list interval_reading) : number :=
  fold_left (fun sum reading => (sum + consumption reading)%float)
    readings PrimFloat.zero.

(** The last three statements of the [try] blocks of
    [getYesterdayUsage] and [getMonthlyUsage]. *)
Definition usage_and_cost (response : consumption_page)
  : M W consumption_window :=
  let* tariff := getTariffInfo in
  let total := totalUsage (results response) in
  let totalCost := (total * parseFloat (unit_rate tariff))%float in
  ret {| usage := total; cost := totalCost |}.

Definition basic_auth : authorization :=
  Basic (apiKey octopusConfig ++ ":").

(** [getYesterdayUsage()]. *)
Definition getYesterdayUsage : M W consumption_window :=
  let* now := moment env in
  let yesterday := format_local_date_minus now 1 in
  try_catch
    (let* response :=
       await (get_consumption env (mpan octopusConfig)
                (serialNumber octopusConfig) basic_auth
                {| period_from := yesterday ++ "T00:00:00Z";
                   period_to := yesterday ++ "T23:59:59Z";
                   page_size := 48 |}) in
     usage_and_cost response)
    (fun error =>
       exec console_error "Error fetching yesterday usage:" (message error)
       then throw error).

(** [getMonthlyUsage()]. *)
Definition getMonthlyUsage : M W consumption_window :=
  let* now := moment env in
  let thirtyDaysAgo := format_local_date_minus now 30 in
  try_catch
    (let* today := moment env in
     let* response :=
       await (get_consumption env (mpan octopusConfig)
                (serialNumber octopusConfig) basic_auth
                {| period_from := thirtyDaysAgo ++ "T00:00:00Z";
                   period_to :=
                     format_local_date_minus today 0 ++ "T23:59:59Z";
                   page_size := 1000 |}) in
     usage_and_cost response)
    (fun error =>
       exec console_error "Error fetching monthly usage:" (message error)
       then throw error).

(** The text that [generateStatusMessage] returns on success. *)
Definition status_text (liveUsage : number)
  (yesterday monthly : consumption_window) (tariff : tariff_info)
  (timestamp : string) : string :=
  "🔌 *Octopus Energy Status*" ++ newline ++ newline
    ++ "*Current Usage:* " ++ toFixed liveUsage 0 ++ "W" ++ newline ++ newline
    ++ "*Yesterday's Usage:*" ++ newline
    ++ formatUsageData (usage yesterday) (cost yesterday)
    ++ newline ++ newline
    ++ "*Last 30 Days:*" ++ newline
    ++ formatUsageData (usage monthly) (cost monthly) ++ newline ++ newline
    ++ "*Tariff Information:*" ++ newline
    ++ "Name: " ++ name tariff ++ newline
    ++ "Unit Rate: £" ++ unit_rate tariff ++ "/kWh" ++ newline
    ++ "Standing Charge: £" ++ standing_charge tariff ++ "/day"
    ++ newline ++ newline
    ++ "Last Updated: " ++ timestamp.

Definition error_text : string :=
  "❌ Error fetching data. Please try again later.".

(** The [try] block of [generateStatusMessage]. *)
Definition generateStatusMessage_try : M W string :=
  let* liveUsage := getLiveUsage in
  let* yesterday := getYesterdayUsage in
  let* monthly := getMonthlyUsage in
  let* tariff := getTariffInfo in
  let* timestamp := formatTimestamp in
  ret (status_text liveUsage yesterday monthly tariff timestamp).

(** [generateStatusMessage()]. *)
Definition generateStatusMessage : M W string :=
  try_catch generateStatusMessage_try
    (fun error =>
       exec console_error "Error generating status message:"
              (message error)
       then ret error_text).

End Bot.

(** ** The command handlers and the unused GraphQL query *)

(** A Telegram chat, message and callback query, with the fields the
    handlers read.  A callback query carries its message only when the
    button was attached to a message the bot sent, and its data only
    when the button has some. *)
Record telegram_chat := { chat_id : Z }.
Record telegram_message :=
  { chat : telegram_chat; message_id : Z; message_text : option string }.
Record callback_query :=
  { query_message : option telegram_message; query_data : option string }.

Record inline_button := { button_text : string; callback_data : string }.
Record keyboard_markup := { inline_keyboard : list (list inline_button) }.

Record send_options :=
  { parse_mode : string; reply_markup : keyboard_markup }.
Record edit_options :=
  { edit_chat_id : Z; edit_message_id : Z;
    edit_parse_mode : string; edit_reply_markup : keyboard_markup }.

(** A call of the Telegram client; the handlers do not wait for its
    outcome. *)
Inductive telegram_call :=
| sendMessage (chatId : Z) (text : string) (options : send_options)
| editMessageText (text : string) (options : edit_options).

(** The process as a handler sees it: the state of the report pipeline
    and the Telegram calls issued so far. *)
Record bot_state (W : Type) :=
  { process : state W; outbox : list telegram_call }.
Arguments process {W} _.
Arguments outbox {W} _.

(** A template hole [${n}] filled with an integer (chat identifiers are
    integers, below 2^53 in magnitude). *)
Definition show_integer (n : Z) : string :=
  (if n <? 0 then "-" else EmptyString) ++ digits (Z.abs n).

(** [pattern.test(s)] for a pattern that is one literal text, without
    anchors or flags: [s] contains the text. *)
Fixpoint includes (literal s : string) : bool :=
  String.prefix literal s
  || match s with
     | EmptyString => false
     | String _ rest => includes literal rest
     end.

(** The response of the [electricityConsumption] query. *)
Record live_consumption := { liveUsage : jsval; timestamp : jsval }.
Record consumption_data :=
  { electricityConsumption : option live_consumption }.

Section Dispatcher.
Context {host : JsHost}.
Context {W : Type} (env : World W).
Variable octopusConfig : Config.

Local Open Scope js_scope.

(** The keyboard both handlers attach. *)
Definition keyboard : keyboard_markup :=
  {| inline_keyboard :=
       [ [ {| button_text := "🔄 Refresh"; callback_data := "refresh" |} ] ] |}.

(** The callback of [bot.onText(/\/start/, ...)]. *)
Definition on_start (msg : telegram_message) (b : bot_state W)
  : completion unit * bot_state W :=
  let chatId := chat_id (chat msg) in
  let logged :=
    with_line (process b)
      (Stdout, "Received /start command from chat " ++ show_integer chatId) in
  match generateStatusMessage env octopusConfig logged with
  | (Return message, s) =>
      (Return tt,
       {| process := s;
          outbox :=
            outbox b
              ++ [ sendMessage chatId message
                     {| parse_mode := "Markdown"; reply_markup := keyboard |} ]
       |})
  | (Throw e, s) => (Throw e, {| process := s; outbox := outbox b |})
  end.

(** [bot.onText(/\/start/, ...)]: the callback runs for a message that
    has a text in which the pattern is found. *)
Definition on_text (msg : telegram_message) (b : bot_state W)
  : completion unit * bot_state W :=
  match message_text msg with
  | Some text => if includes "/start" text then on_start msg b
                 else (Return tt, b)
  | None => (Return tt, b)
  end.

(** [callbackQuery.data === "refresh"]. *)
Definition is_refresh (q : callback_query) : bool :=
  match query_data q with
  | Some d => String.eqb d "refresh"
  | None => false
  end.

(** The callback of [bot.on("callback_query", ...)]. *)
Definition on_callback_query (q : callback_query) (b : bot_state W)
  : completion unit * bot_state W :=
  match query_message q with
  | None => (Throw (undefined_read "chat"), b)
  | Some origin =>
      let chatId := chat_id (chat origin) in
      let messageId := message_id origin in
      if is_refresh q then
        let logged :=
          with_line (process b)
            (Stdout,
             "Received refresh request from chat " ++ show_integer chatId) in
        match generateStatusMessage env octopusConfig logged with
        | (Return message, s) =>
            (Return tt,
             {| process := s;
                outbox :=
                  outbox b
                    ++ [ editMessageText message
                           {| edit_chat_id := chatId;
                              edit_message_id := messageId;
                              edit_parse_mode := "Markdown";
                              edit_reply_markup := keyboard |} ] |})
        | (Throw e, s) => (Throw e, {| process := s; outbox := outbox b |})
        end
      else (Return tt, b)
  end.

(** The endpoint of the [electricityConsumption] query, which receives
    the MPAN, the serial number and the credentials. *)
Variable post_electricityConsumption :
  string -> string -> authorization -> W ->
  axios_result (graphql consumption_data) * W.

(** [getLiveUsageGraphQL()], which no other function calls. *)
Definition getLiveUsageGraphQL : M W jsval :=
  try_catch
    (let* response :=
       await (post_electricityConsumption (mpan octopusConfig)
                (serialNumber octopusConfig) (basic_auth octopusConfig)) in
     let* data := read_nullable (gql_data response) "electricityConsumption" in
     let* reading := read_nullable (electricityConsumption data) "liveUsage" in
     ret (liveUsage reading))
    (fun error =>
       exec console_error "Error fetching live usage via GraphQL:"
              (message error)
       then throw error).

End Dispatcher.

(** ** A reference host and a scripted provider, for the examples *)

Module Reference.

(** The value [s * 10^(n - k)] as a number. *)
Definition decimal_value (s n k : Z) : number :=
  if 0 <=? n - k then round_ratio false (s * 10 ^ (n - k)) 1
  else round_ratio false s (10 ^ (k - n)).

Definition same_number (a b : number) : bool :=
  match SFcompare (Prim2SF a) (Prim2SF b) with
  | Some Eq => true
  | _ => false
  end.

(** For [x = p / q > 0] with [10^(n-1) <= x < 10^n]: the [k]-digit
    [s] (with its decimal exponent) for which [s * 10^(n-k)] reads
    back as [x], the closest to [x] and the even one on a tie. *)
Definition shortest_at (x : number) (p q n k : Z) : option (Z * Z) :=
  let lo := if 0 <=? k - n then p * 10 ^ (k - n) / q
            else p / (q * 10 ^ (n - k)) in
  let hi := lo + 1 in
  let ok c := same_number (decimal_value c n k) x in
  (* twice the distance of x to lo and to hi, in units of 10^(n-k)/q *)
  let scaled := if 0 <=? k - n then (p * 10 ^ (k - n), q)
                else (p, q * 10 ^ (n - k)) in
  let below := fst scaled - lo * snd scaled in
  let above := hi * snd scaled - fst scaled in
  let pick_hi := if hi =? 10 ^ k then (10 ^ (k - 1), n + 1) else (hi, n) in
  match ok lo, ok hi with
  | true, true =>
      if below <? above then Some (lo, n)
      else if above <? below then Some pick_hi
      else if Z.even lo then Some (lo, n) else Some pick_hi
  | true, false => Some (lo, n)
  | false, true => Some pick_hi
  | false, false => None
  end.

Fixpoint shortest_from (fuel : nat) (x : number) (p q n k : Z) : Z * Z * Z :=
  match fuel with
  | O => (p * 10 ^ (17 - n) / q, n, 17)
  | S fuel' =>
      match shortest_at x p q n k with
      | Some (s, n') => (s, n', k)
      | None => shortest_from fuel' x p q n (k + 1)
      end
  end.

(** [Number::toString] on a finite non-zero number. *)
Definition reference_toString (x : number) : string :=
  match Prim2SF x with
  | S754_finite neg m e =>
      let '(p, q) := if 0 <=? e then (Zpos m * 2 ^ e, 1)
                     else (Zpos m, 2 ^ (- e)) in
      let n0 :=
        if q <=? p then Z.of_nat (String.length (digits (p / q)))
        else 1 - Z.of_nat (String.length (digits (q / p))) in
      let '(s, n, k) :=
        shortest_from 17 (PrimFloat.abs x) p q n0 1 in
      let ds := digits s in
      let body :=
        if (k <=? n) && (n <=? 21) then
          ds ++ repeat_char "0" (Z.to_nat (n - k))
        else if (0 <? n) && (n <=? 21) then
          take (Z.to_nat n) ds ++ "." ++ drop (Z.to_nat n) ds
        else if (-6 <? n) && (n <=? 0) then
          "0." ++ repeat_char "0" (Z.to_nat (- n)) ++ ds
        else
          let ex := n - 1 in
          let tail := (if 0 <=? ex then "e+" else "e-") ++ digits (Z.abs ex) in
          if k =? 1 then ds ++ tail
          else take 1 ds ++ "." ++ drop 1 ds ++ tail in
      (if neg then "-" else EmptyString) ++ body
  | _ => EmptyString
  end.

Definition hex_value (c : ascii) : option Z :=
  let n := Z.of_nat (nat_of_ascii c) in
  if (48 <=? n) && (n <=? 57) then Some (n - 48)
  else if (65 <=? n) && (n <=? 70) then Some (n - 55)
  else if (97 <=? n) && (n <=? 102) then Some (n - 87)
  else None.

(** The leading digits of [s] in [radix] and what follows them. *)
Fixpoint span_radix (radix : Z) (s : string) : list Z * string :=
  match s with
  | String c rest =>
      match hex_value c with
      | Some d =>
          if d <? radix
          then let (ds, tl) := span_radix radix rest in (d :: ds, tl)
          else ([], s)
      | None => ([], s)
      end
  | EmptyString => ([], s)
  end.

(** A literal that must fill the string up to trailing white space. *)
Definition whole (parsed : option (number * string)) : number :=
  match parsed with
  | Some (v, rest) =>
      match trim_start rest with
      | EmptyString => v
      | _ => NaN
      end
  | None => NaN
  end.

Definition radix_literal (radix : Z) (body : string) : number :=
  whole
    match span_radix radix body with
    | ([], _) => None
    | (ds, tl) =>
        let v := fold_left (fun acc d => radix * acc + d) ds 0 in
        Some (if v =? 0 then PrimFloat.zero else round_ratio false v 1, tl)
    end.

(** [Number(s)]: white space is trimmed at both ends, the empty
    string is 0, and the rest must be one numeric literal (decimal,
    or unsigned with a [0x], [0o] or [0b] prefix). *)
Definition reference_StringToNumber (s : string) : number :=
  match trim_start s with
  | EmptyString => PrimFloat.zero
  | String "0" (String "x" body) | String "0" (String "X" body) =>
      radix_literal 16 body
  | String "0" (String "o" body) | String "0" (String "O" body) =>
      radix_literal 8 body
  | String "0" (String "b" body) | String "0" (String "B" body) =>
      radix_literal 2 body
  | t => whole (span_decimal_literal t)
  end.

(** [count] decimal digits at the head of [s]. *)
Fixpoint fixed_digits (count : nat) (acc : Z) (s : string)
  : option (Z * string) :=
  match count, s with
  | O, _ => Some (acc, s)
  | S count', String c rest =>
      if is_digit c
      then fixed_digits count' (10 * acc + digit_value c) rest
      else None
  | S _, EmptyString => None
  end.

Definition expect (c : ascii) (s : string) : option string :=
  match s with
  | String d rest => if Ascii.eqb c d then Some rest else None
  | EmptyString => None
  end.

Definition is_leap (y : Z) : bool :=
  (y mod 4 =? 0) && (negb (y mod 100 =? 0) || (y mod 400 =? 0)).

Definition days_in_month (y m : Z) : Z :=
  if m =? 2 then (if is_leap y then 29 else 28)
  else if (m =? 4) || (m =? 6) || (m =? 9) || (m =? 11) then 30 else 31.

(** The zone designator: [Z] or [+HH:mm] / [-HH:mm], in minutes. *)
Definition zone_minutes (s : string) : option Z :=
  match s with
  | String "Z" EmptyString => Some 0
  | String sign rest =>
      '(h, rest) ← fixed_digits 2 0 rest;
      rest ← expect ":" rest;
      '(m, rest) ← fixed_digits 2 0 rest;
      match rest with
      | EmptyString =>
          if (h <? 24) && (m <? 60) then
            if Ascii.eqb sign "+" then Some (60 * h + m)
            else if Ascii.eqb sign "-" then Some (- (60 * h + m))
            else None
          else None
      | _ => None
      end
  | EmptyString => None
  end.

(** [Date.parse] on the interchange format the provider sends:
    [YYYY-MM-DD], or [YYYY-MM-DDTHH:mm:ss] with optional milliseconds,
    followed by a zone designator.  Every other string is taken as
    unparseable. *)
Definition reference_Date_parse (s : string) : option Z :=
  '(y, rest) ← fixed_digits 4 0 s;
  rest ← expect "-" rest;
  '(m, rest) ← fixed_digits 2 0 rest;
  rest ← expect "-" rest;
  '(d, rest) ← fixed_digits 2 0 rest;
  if (1 <=? m) && (m <=? 12) && (1 <=? d) && (d <=? days_in_month y m) then
    let day := days_from_civil y m d * ms_per_day in
    match rest with
    | EmptyString => Some day
    | _ =>
        rest ← expect "T" rest;
        '(h, rest) ← fixed_digits 2 0 rest;
        rest ← expect ":" rest;
        '(mi, rest) ← fixed_digits 2 0 rest;
        rest ← expect ":" rest;
        '(sec, rest) ← fixed_digits 2 0 rest;
        '(ms, rest) ←
          match rest with
          | String "." frac => fixed_digits 3 0 frac
          | _ => Some (0, rest)
          end;
        zone ← zone_minutes rest;
        if (h <? 24) && (mi <? 60) && (sec <? 60) then
          Some (day + h * 3600000 + mi * 60000 + sec * 1000 + ms
                - zone * 60000)
        else None
    end
  else None.

(** The reference host: the conversions above, local time is UTC. *)
#[export] Instance reference_host : JsHost := {|
  finite_toString := reference_toString;
  StringToNumber := reference_StringToNumber;
  Date_parse := reference_Date_parse;
  utc_offset_minutes := fun _ => 0
|}.

(** A provider that answers every call of an endpoint the same way,
    at a fixed instant. *)
Record answers := {
  token_answer : axios_result (graphql token_data);
  devices_answer : axios_result (graphql account_data);
  telemetry_answer : axios_result (graphql telemetry_data);
  account_answer : axios_result account_record;
  product_answer : string -> axios_result product_record;
  consumption_answer : consumption_query -> axios_result consumption_page;
  instant : Z
}.

Definition scripted (a : answers) : World unit := {|
  post_obtainKrakenToken := fun _ w => (token_answer a, w);
  post_account_devices := fun _ _ w => (devices_answer a, w);
  post_smartMeterTelemetry := fun _ _ w => (telemetry_answer a, w);
  get_account := fun _ _ w => (account_answer a, w);
  get_product := fun code w => (product_answer a code, w);
  get_consumption := fun _ _ _ q w => (consumption_answer a q, w);
  clock := fun w => (instant a, w)
|}.

Definition start : state unit := {| world := tt; console := [] |}.

End Reference.

(** ** Example data *)

Module Examples.
Import Reference.

Definition config : Config := {|
  baseURL := "https://api.octopus.energy/v1";
  apiKey := "sk_live_example";
  mpan := "1200012345678";
  serialNumber := "21L0000000";
  OCTOPUS_ACCOUNT_NUMBER := "A-1234ABCD"
|}.

Definition token_ok : axios_result (graphql token_data) :=
  inr {| gql_data :=
           Some {| obtainKrakenToken := Some {| token := "jwt-1" |} |} |}.

Definition devices_of (ds : option (list smart_device))
  : axios_result (graphql account_data) :=
  inr {| gql_data := Some {| account := Some {| electricityAgreements :=
    Some [ {| meterPoint := Some {| meters :=
      Some [ {| smartDevices := ds |} ] |} |} ] |} |} |}.

Definition devices_ok := devices_of (Some [ {| deviceId := "00-11-22" |} ]).

Definition telemetry_of (d : jsval)
  : axios_result (graphql telemetry_data) :=
  inr {| gql_data := Some {| smartMeterTelemetry :=
    Some [ {| readAt := "2025-11-03T02:30:00+00:00"; demand := d;
              telemetry_consumption := JNull |} ] |} |}.

Definition account_of (ags : list agreement) : axios_result account_record :=
  inr {| properties :=
    [ {| electricity_meter_points :=
           [ {| meter_point_mpan := "1200012345678"; agreements := ags |} ]
      |} ] |}.

Definition flexible : agreement :=
  {| tariff_code := "E-1R-VAR-22-11-01-A"; valid_to := JNull |}.

Definition agreed (code : string) (until : jsval) : agreement :=
  {| tariff_code := code; valid_to := until |}.

(** Three agreements in input order; the last two end on the same
    day. *)
Definition dated_agreements : list agreement :=
  [ agreed "E-1R-VAR-21-09-29-A" (JStr "2023-04-01T00:00:00Z");
    agreed "E-1R-VAR-22-11-01-A" (JStr "2024-04-01T00:00:00Z");
    agreed "E-1R-AGILE-22-08-31-A" (JStr "2024-04-01T00:00:00+00:00") ].

(** A closed agreement followed by the open-ended one that replaced
    it. *)
Definition open_ended_agreements : list agreement :=
  [ agreed "E-1R-VAR-21-09-29-A" (JStr "2023-04-01T00:00:00Z");
    agreed "E-1R-VAR-22-11-01-A" JNull ].

Definition product_of (rate standing : number) (code : string)
  : axios_result product_record :=
  if String.eqb code "VAR-22-11-01" then
    inr {| display_name := "Flexible Octopus";
           single_register_electricity_tariffs :=
             {[ "_A" := {| direct_debit_monthly :=
                  Some {| standard_unit_rate_inc_vat := rate;
                          standing_charge_inc_vat := standing |} |} ]} |}
  else inl (Error "Request failed with status code 404").

Definition readings_of (values : list number) : consumption_page :=
  {| results := map (fun v => {| consumption := v |}) values |}.

(** One agreement, one device, demand 350, 8.2 kWh yesterday, 210.5
    kWh over thirty days, 27.12 p/kWh and 48.65 p/day. *)
Definition scenario : answers := {|
  token_answer := token_ok;
  devices_answer := devices_ok;
  telemetry_answer := telemetry_of (JStr "350");
  account_answer := account_of [flexible];
  product_answer := product_of 27.12%float 48.65%float;
  consumption_answer := fun q =>
    if page_size q =? 48
    then inr (readings_of [4.1; 4.1]%float)
    else inr (readings_of [200; 10.5]%float);
  instant := 1762137000123
|}.

Definition with_token t (a : answers) : answers :=
  {| token_answer := t; devices_answer := devices_answer a;
     telemetry_answer := telemetry_answer a;
     account_answer := account_answer a;
     product_answer := product_answer a;
     consumption_answer := consumption_answer a; instant := instant a |}.

Definition with_telemetry t (a : answers) : answers :=
  {| token_answer := token_answer a; devices_answer := devices_answer a;
     telemetry_answer := t; account_answer := account_answer a;
     product_answer := product_answer a;
     consumption_answer := consumption_answer a; instant := instant a |}.

Definition with_account acc (a : answers) : answers :=
  {| token_answer := token_answer a; devices_answer := devices_answer a;
     telemetry_answer := telemetry_answer a; account_answer := acc;
     product_answer := product_answer a;
     consumption_answer := consumption_answer a; instant := instant a |}.

Definition with_rate_and_readings (rate : number) (values : list number)
  (a : answers) : answers :=
  {| token_answer := token_answer a; devices_answer := devices_answer a;
     telemetry_answer := telemetry_answer a;
     account_answer := account_answer a;
     product_answer := product_of rate 48.65%float;
     consumption_answer := fun _ => inr (readings_of values);
     instant := instant a |}.

Definition network_fault : js_error :=
  {| error_name := "AxiosError"; message := "Network Error" |}.

(** The token endpoint cannot be reached. *)
Definition offline : answers := with_token (inl network_fault) scenario.

(** The account endpoint rejects the request. *)
Definition account_refused : answers :=
  with_account (inl (Error "Request failed with status code 401")) scenario.

(** The meter point of the configured MPAN has no agreement. *)
Definition no_agreements : answers := with_account (account_of []) scenario.

(** The account only has a meter point with another MPAN. *)
Definition other_mpan : answers :=
  with_account
    (inr {| properties :=
              [ {| electricity_meter_points :=
                     [ {| meter_point_mpan := "1900099999999";
                          agreements := [flexible] |} ] |} ] |})
    scenario.

(** The current agreement is for region B, the product lists region
    A only. *)
Definition other_region : answers :=
  with_account (account_of [agreed "E-1R-VAR-22-11-01-B" JNull]) scenario.

(** The current agreement is for a region written [_proto__]: the key
    of its tariff is [__proto__], which the table of region A does not
    hold and every object inherits. *)
Definition inherited_region : answers :=
  with_account (account_of [agreed "E-1R-VAR-22-11-01-_proto__" JNull])
    scenario.

(** The demand of the first telemetry reading is a text that is no
    number. *)
Definition unreadable_demand : answers :=
  with_telemetry (telemetry_of (JStr "abc")) scenario.

(** The first telemetry reading has no demand field / a null one. *)
Definition missing_demand : answers :=
  with_telemetry (telemetry_of JUndefined) scenario.

Definition null_demand : answers :=
  with_telemetry (telemetry_of JNull) scenario.

(** 10 kWh at 25 p/kWh. *)
Definition round_numbers : answers :=
  with_rate_and_readings 25%float [4; 6]%float scenario.


Definition with_devices d (a : answers) : answers :=
  {| token_answer := token_answer a; devices_answer := d;
     telemetry_answer := telemetry_answer a;
     account_answer := account_answer a;
     product_answer := product_answer a;
     consumption_answer := consumption_answer a; instant := instant a |}.

(** The API key is refused: the mutation answers [null]. *)
Definition key_refused : answers :=
  with_token
    (inr {| gql_data := Some {| obtainKrakenToken := None |} |}) scenario.

(** The meter has no smart device. *)
Definition no_device : answers := with_devices (devices_of (Some [])) scenario.

(** The device has no telemetry. *)
Definition no_telemetry : answers :=
  with_telemetry
    (inr {| gql_data := Some {| smartMeterTelemetry := Some [] |} |})
    scenario.

(** The thirty-day page cannot be fetched. *)
Definition month_unavailable : answers :=
  {| token_answer := token_answer scenario;
     devices_answer := devices_answer scenario;
     telemetry_answer := telemetry_answer scenario;
     account_answer := account_answer scenario;
     product_answer := product_answer scenario;
     consumption_answer := fun q =>
       if page_size q =? 48 then consumption_answer scenario q
       else inl (Error "Request failed with status code 503");
     instant := instant scenario |}.

(** A provider that counts the account requests and refuses the third
    one: the two aggregations get their tariff, the report does not. *)
Definition account_expiring : World nat := {|
  post_obtainKrakenToken := fun _ w => (token_answer scenario, w);
  post_account_devices := fun _ _ w => (devices_answer scenario, w);
  post_smartMeterTelemetry := fun _ _ w => (telemetry_answer scenario, w);
  get_account := fun _ _ w =>
    (if (w <? 2)%nat then account_answer scenario
     else inl (Error "Request failed with status code 401"), S w);
  get_product := fun code w => (product_answer scenario code, w);
  get_consumption := fun _ _ _ q w => (consumption_answer scenario q, w);
  clock := fun w => (instant scenario, w)
|}.

Definition tenths : list interval_reading :=
  results (readings_of [0.1; 0.2; 0.3]%float).

Definition tenths_reversed : list interval_reading :=
  results (readings_of [0.3; 0.2; 0.1]%float).

Definition quarters : list interval_reading :=
  results (readings_of [1.5; 2.25; 4]%float).

Definition quarters_reordered : list interval_reading :=
  results (readings_of [4; 1.5; 2.25]%float).

(** An agreement whose record has no valid_to, then a dated one. *)
Definition undated_first : list agreement :=
  [ agreed "E-1R-VAR-21-09-29-A" JUndefined;
    agreed "E-1R-VAR-22-11-01-A" (JStr "2024-04-01T00:00:00Z") ].

(** An agreement that ended before the current one of
    [dated_agreements]. *)
Definition expired : agreement :=
  agreed "E-1R-GO-18-06-12-A" (JStr "2019-06-12T00:00:00Z").

(** Two agreements, two meters and two devices; only the first of each
    counts. *)
Definition several_devices : axios_result (graphql account_data) :=
  inr {| gql_data := Some {| account := Some {| electricityAgreements :=
    Some [ {| meterPoint := Some {| meters :=
              Some [ {| smartDevices :=
                          Some [ {| deviceId := "00-11-22" |};
                                 {| deviceId := "33-44-55" |} ] |};
                     {| smartDevices := None |} ] |} |};
           {| meterPoint := None |} ] |} |} |}.

(** The region's tariff is offered on other payment methods only. *)
Definition no_direct_debit : answers :=
  {| token_answer := token_answer scenario;
     devices_answer := devices_answer scenario;
     telemetry_answer := telemetry_answer scenario;
     account_answer := account_answer scenario;
     product_answer := fun _ =>
       inr {| display_name := "Flexible Octopus";
              single_register_electricity_tariffs :=
                {[ "_A" := {| direct_debit_monthly := None |} ]} |};
     consumption_answer := consumption_answer scenario;
     instant := instant scenario |}.

(** No consumption page can be fetched. *)
Definition consumption_unavailable : answers :=
  {| token_answer := token_answer scenario;
     devices_answer := devices_answer scenario;
     telemetry_answer := telemetry_answer scenario;
     account_answer := account_answer scenario;
     product_answer := product_answer scenario;
     consumption_answer := fun _ =>
       inl (Error "Request failed with status code 503");
     instant := instant scenario |}.

(** A [/start] command, and the press of the refresh button under the
    message that answered it. *)
Definition start_command : telegram_message :=
  {| chat := {| chat_id := 424242 |}; message_id := 17;
     message_text := Some "/start" |}.

Definition refresh_press : callback_query :=
  {| query_message :=
       Some {| chat := {| chat_id := 424242 |}; message_id := 18;
               message_text := None |};
     query_data := Some "refresh" |}.

Definition idle : bot_state unit := {| process := start; outbox := [] |}.

(** The consumption query answers with a live usage of 350. *)
Definition live_350 (_ _ : string) (_ : authorization) (w : unit)
  : axios_result (graphql consumption_data) * unit :=
  (inr {| gql_data :=
            Some {| electricityConsumption :=
                      Some {| liveUsage := JNum 350%float;
                              timestamp := JStr "2025-11-03T02:30:00Z" |} |}
       |}, w).

End Examples.

(** ** Vocabulary of the statements *)

(** No occurrence of [sep] in [s]. *)
Fixpoint free_of (sep : ascii) (s : string) : bool :=
  match s with
  | EmptyString => true
  | String c rest => negb (Ascii.eqb c sep) && free_of sep rest
  end.

(** A finite number as a whole count of 2^-1074, the spacing of the
    smallest numbers: every finite binary64 is such a multiple. *)
Definition in_quanta (x : number) : option Z :=
  match Prim2SF x with
  | S754_zero _ => Some 0
  | S754_finite neg m e =>
      let v := Z.shiftl (Zpos m) (e + 1074) in Some (if neg then - v else v)
  | _ => None
  end.

(** Adding the readings to [sum] from left to right never rounds: each
    partial sum is finite and is the exact sum of its two operands. *)
Fixpoint adds_exactly_from (sum : number) (readings : list interval_reading)
  : bool :=
  match readings with
  | [] => true
  | reading :: rest =>
      let next := (sum + consumption reading)%float in
      match in_quanta sum, in_quanta (consumption reading), in_quanta next with
      | Some a, Some b, Some c => (c =? a + b) && adds_exactly_from next rest
      | _, _, _ => false
      end
  end.

Definition adds_exactly (readings : list interval_reading) : bool :=
  adds_exactly_from PrimFloat.zero readings.

(** The exact sum of the readings, in quanta. *)
Definition quanta_total (readings : list interval_reading) : Z :=
  fold_right
    (fun reading acc =>
       match in_quanta (consumption reading) with
       | Some q => q + acc
       | None => acc
       end)
    0 readings.

(** The numbers that [toFixed] writes in fixed-point notation: the
    finite ones below 10^21 in magnitude. *)
Definition fixed_point_range (x : number) : bool :=
  match Prim2SF x with
  | S754_zero _ => true
  | S754_finite _ m e =>
      negb (if 0 <=? e then 10 ^ 21 <=? Zpos m * 2 ^ e
            else 10 ^ 21 * 2 ^ (- e) <=? Zpos m)
  | _ => false
  end.

(** A text of decimal digits only. *)
Fixpoint all_digits (s : string) : bool :=
  match s with
  | EmptyString => true
  | String c rest => is_digit c && all_digits rest
  end.

(** A whole number in decimal: one digit or more, after an optional
    minus sign. *)
Definition whole_number (text : string) : bool :=
  match text with
  | EmptyString => false
  | String c rest =>
      if Ascii.eqb c "-"
      then negb (String.eqb rest EmptyString) && all_digits rest
      else all_digits text
  end.

(** A number in decimal with exactly [f] decimals: a whole number, the
    decimal point and [f] digits. *)
Definition decimals (f : nat) (text : string) : bool :=
  match split "." text with
  | [whole; frac] =>
      whole_number whole && all_digits frac && (String.length frac =? f)%nat
  | _ => false
  end.

Section Vocabulary.
Context {host : JsHost}.

(** The time value that the comparison sees for an agreement. *)
Definition valid_time (a : agreement) : time_value :=
  Date_new (valid_to a).

Definition ends_before (t : Z) (a : agreement) : Prop :=
  exists u, valid_time a = Some u /\ u < t.

Definition ends_by (t : Z) (a : agreement) : Prop :=
  exists u, valid_time a = Some u /\ u <= t.

End Vocabulary.

Section TariffVocabulary.
Context {host : JsHost}.
Context {W : Type} (env : World W).
Variable octopusConfig : Config.

(** The three records that [getTariffInfo] may find missing; the
    last one with the key under which the tariff table has no entry. *)
Inductive missing_record :=
| NoMatchingProperty
| NoCurrentAgreement
| NoRegionEntry (key : string).

(** The error that [getTariffInfo] ends with for each of them.  The
    code has no error of its own for a missing record but the first:
    its [Error] for the MPAN; the engine's [TypeError] for the read of
    [tariff_code] on the [null] agreement; and for the table, the
    engine's [TypeError] for the read on what the lookup gives:
    [undefined], or a member of [Object.prototype] when the key names
    one, which is read one step further. *)
Definition missing_record_error (why : missing_record) : js_error :=
  match why with
  | NoMatchingProperty =>
      Error ("MPAN " ++ mpan octopusConfig ++ " not found in any property")
  | NoCurrentAgreement => null_read "tariff_code"
  | NoRegionEntry key =>
      if inherited key then undefined_read "standard_unit_rate_inc_vat"
      else undefined_read "direct_debit_monthly"
  end.

Definition fetch_account (w : W) : axios_result account_record * W :=
  get_account env (OCTOPUS_ACCOUNT_NUMBER octopusConfig)
    (Basic (apiKey octopusConfig ++ ":")) w.

(** No meter point of any property carries the configured MPAN. *)
Definition mpan_absent (acc : account_record) : Prop :=
  Forall (fun p =>
            Forall (fun e => meter_point_mpan e <> mpan octopusConfig)
              (electricity_meter_points p))
    (properties acc).

(** The meter point that the two [find] calls select. *)
Definition mpanPoint_of (acc : account_record)
  : option electricity_meter_point :=
  match
    List.find (fun p =>
                 existsb (has_mpan octopusConfig)
                   (electricity_meter_points p))
      (properties acc)
  with
  | Some propertyWithMpan =>
      List.find (has_mpan octopusConfig)
        (electricity_meter_points propertyWithMpan)
  | None => None
  end.

(** In state [s] the account is fetched and a record is missing: no
    property with the MPAN; or no agreement on the matching meter
    point; or, the product of the current agreement being fetched, no
    entry for its region in the tariff table. *)
Inductive record_missing (s : state W) : missing_record -> Prop :=
| missing_property acc w1 :
    fetch_account (world s) = (inr acc, w1) ->
    mpan_absent acc ->
    record_missing s NoMatchingProperty
| missing_agreement acc w1 point :
    fetch_account (world s) = (inr acc, w1) ->
    mpanPoint_of acc = Some point ->
    agreements point = [] ->
    record_missing s NoCurrentAgreement
| missing_region acc w1 point current productRes w2 :
    fetch_account (world s) = (inr acc, w1) ->
    mpanPoint_of acc = Some point ->
    currentAgreement (agreements point) = Some current ->
    get_product env (fst (parseTariffCode (tariff_code current))) w1
    = (inr productRes, w2) ->
    single_register_electricity_tariffs productRes
      !! ("_" ++ show_undefined (snd (parseTariffCode (tariff_code current))))
    = None ->
    record_missing s
      (NoRegionEntry
         ("_" ++ show_undefined (snd (parseTariffCode (tariff_code current))))).

(** An error propagates out of the tariff resolution or of one of
    the two consumption aggregations of a report started in state
    [s]: the earlier steps return, the failing one throws [e] and
    leaves state [s_end]. *)
Inductive aggregation_fails (s : state W) (e : js_error) (s_end : state W)
  : Prop :=
| yesterday_fails live s1 :
    getLiveUsage env octopusConfig s = (Return live, s1) ->
    getYesterdayUsage env octopusConfig s1 = (Throw e, s_end) ->
    aggregation_fails s e s_end
| monthly_fails live s1 yesterday s2 :
    getLiveUsage env octopusConfig s = (Return live, s1) ->
    getYesterdayUsage env octopusConfig s1 = (Return yesterday, s2) ->
    getMonthlyUsage env octopusConfig s2 = (Throw e, s_end) ->
    aggregation_fails s e s_end
| tariff_fails live s1 yesterday s2 monthly s3 :
    getLiveUsage env octopusConfig s = (Return live, s1) ->
    getYesterdayUsage env octopusConfig s1 = (Return yesterday, s2) ->
    getMonthlyUsage env octopusConfig s2 = (Return monthly, s3) ->
    getTariffInfo env octopusConfig s3 = (Throw e, s_end) ->
    aggregation_fails s e s_end.

End TariffVocabulary.

(** *** Vocabulary of the further properties *)

(** A list the code treats as missing: [null], or empty. *)
Definition absent {A} (l : option (list A)) : Prop :=
  l = None \/ l = Some [].

(** The three lists [getMeterGuid] walks through. *)
Inductive missing_link :=
| NoAgreements
| NoMeters
| NoSmartDevices.

(** The error [getMeterGuid] throws for each. *)
Definition missing_link_error (why : missing_link) : js_error :=
  Error
    match why with
    | NoAgreements => "No active electricity agreements found"
    | NoMeters => "No active meters found"
    | NoSmartDevices => "No smart devices found"
    end.

(** The first list that is missing on the way from the account to a
    device: the agreements; or the meters of the first agreement; or
    the devices of its first meter. *)
Inductive chain_broken (acc : account_devices) : missing_link -> Prop :=
| broken_agreements :
    absent (electricityAgreements acc) ->
    chain_broken acc NoAgreements
| broken_meters agreement0 agreements' point :
    electricityAgreements acc = Some (agreement0 :: agreements') ->
    meterPoint agreement0 = Some point ->
    absent (meters point) ->
    chain_broken acc NoMeters
| broken_devices agreement0 agreements' point meter0 meters' :
    electricityAgreements acc = Some (agreement0 :: agreements') ->
    meterPoint agreement0 = Some point ->
    meters point = Some (meter0 :: meters') ->
    absent (smartDevices meter0) ->
    chain_broken acc NoSmartDevices.

(** The last line of a console, if any. *)
Definition last_line (lines : list log_line) : option log_line :=
  List.last (map Some lines) None.

Section FurtherVocabulary.
Context {host : JsHost}.
Context {W : Type} (env : World W).
Variable octopusConfig : Config.

(** The tariff resolution started in state [s] ends with the error [e]
    of a request, leaving the world in [w]: the account request fails;
    or the product request of the current agreement does. *)
Inductive request_fails (s : state W) (e : js_error) (w : W) : Prop :=
| account_request_fails :
    fetch_account env octopusConfig (world s) = (inl e, w) ->
    request_fails s e w
| product_request_fails acc w1 point current :
    fetch_account env octopusConfig (world s) = (inr acc, w1) ->
    mpanPoint_of octopusConfig acc = Some point ->
    currentAgreement (agreements point) = Some current ->
    get_product env (fst (parseTariffCode (tariff_code current))) w1
    = (inl e, w) ->
    request_fails s e w.

(** The query of [getYesterdayUsage] at the instant [now]. *)
Definition yesterday_query (now : Z) : consumption_query :=
  {| period_from := format_local_date_minus now 1 ++ "T00:00:00Z";
     period_to := format_local_date_minus now 1 ++ "T23:59:59Z";
     page_size := 48 |}.

(** The query of [getMonthlyUsage], whose start is taken at [now] and
    whose end at the later reading [today] of the clock. *)
Definition monthly_query (now today : Z) : consumption_query :=
  {| period_from := format_local_date_minus now 30 ++ "T00:00:00Z";
     period_to := format_local_date_minus today 0 ++ "T23:59:59Z";
     page_size := 1000 |}.

Definition fetch_consumption (q : consumption_query) (w : W)
  : axios_result consumption_page * W :=
  get_consumption env (mpan octopusConfig) (serialNumber octopusConfig)
    (basic_auth octopusConfig) q w.

End FurtherVocabulary.

(** * Theorems *)

(** ** Arrays and strings *)

Section ArrayFacts.
Context {A : Type}.

(** [slice(2, -1)] drops the first two elements and the last one. *)
Lemma slice_2_m1 (arr : list A) :
  slice 2 (-1) arr = removelast (skipn 2 arr).
Proof.
  unfold slice.
  destruct arr as [|a [|b rest]]; try reflexivity.
  change (skipn 2 (a :: b :: rest)) with rest.
  rewrite removelast_firstn_len.
  replace (Z.of_nat (List.length (a :: b :: rest)))
    with (Z.of_nat (List.length rest) + 2) by (cbn [List.length]; lia).
  destruct (2 <? 0) eqn:E2; [discriminate|].
  destruct (-1 <? 0) eqn:E1; [|discriminate].
  rewrite Z.min_l, Z.max_l by lia.
  change (skipn (Z.to_nat 2) (a :: b :: rest)) with rest.
  f_equal. lia.
Qed.

(** The last index of a non-empty array holds its last element. *)
Lemma index_last (arr : list A) (d : A) :
  arr <> [] ->
  index arr (Z.of_nat (List.length arr) - 1) = Some (List.last arr d).
Proof.
  intros Hne. unfold index.
  destruct arr as [|a rest]; [congruence|].
  destruct (_ <? 0) eqn:E; [apply Z.ltb_lt in E; cbn [List.length] in E; lia|].
  replace (Z.to_nat (Z.of_nat (List.length (a :: rest)) - 1))
    with (List.length rest) by (cbn [List.length]; lia).
  clear. revert a. induction rest as [|b rest IH]; intros a; [reflexivity|].
  cbn [List.length nth_error]. rewrite IH. reflexivity.
Qed.
End ArrayFacts.

Lemma append_empty (s : string) : EmptyString ++ s = s.
Proof. reflexivity. Qed.

Lemma append_String (c : ascii) (s t : string) :
  String c s ++ t = String c (s ++ t).
Proof. reflexivity. Qed.

Lemma append_assoc (s t u : string) : (s ++ t) ++ u = s ++ t ++ u.
Proof.
  induction s as [|c s IH]; [reflexivity|].
  rewrite !append_String, IH. reflexivity.
Qed.

Ltac push_append := rewrite ?append_String, ?append_empty.

Lemma split_not_nil (sep : ascii) (s : string) : split sep s <> [].
Proof.
  destruct s as [|c rest]; cbn; [discriminate|].
  destruct (Ascii.eqb c sep); [discriminate|].
  destruct (split sep rest); discriminate.
Qed.

Lemma split_free (sep : ascii) (s : string) :
  free_of sep s = true -> split sep s = [s].
Proof.
  induction s as [|c rest IH]; cbn; [reflexivity|].
  destruct (Ascii.eqb c sep); cbn; [discriminate|].
  intros H. rewrite (IH H). reflexivity.
Qed.

(** A piece without separator in front of a separator is split off. *)
Lemma split_cons (sep : ascii) (piece rest : string) :
  free_of sep piece = true ->
  split sep (piece ++ String sep rest) = piece :: split sep rest.
Proof.
  induction piece as [|c piece IH]; push_append; cbn.
  - rewrite Ascii.eqb_refl. reflexivity.
  - destruct (Ascii.eqb c sep); cbn; [discriminate|].
    intros H. rewrite (IH H). reflexivity.
Qed.

(** A piece without separator behind a separator is the last piece. *)
Lemma split_snoc (sep : ascii) (s piece : string) :
  free_of sep piece = true ->
  split sep (s ++ String sep piece) = (split sep s ++ [piece])%list.
Proof.
  intros H. induction s as [|c s IH]; push_append; cbn.
  - rewrite Ascii.eqb_refl, (split_free _ _ H). reflexivity.
  - destruct (Ascii.eqb c sep); cbn; rewrite IH; [reflexivity|].
    pose proof (split_not_nil sep s) as Hne.
    destruct (split sep s); [congruence|reflexivity].
Qed.

(** Joining the pieces with the separator gives the string back. *)
Lemma join_split (sep : ascii) (s : string) :
  join (String sep EmptyString) (split sep s) = s.
Proof.
  unfold join. induction s as [|c s IH]; cbn; [reflexivity|].
  pose proof (split_not_nil sep s) as Hne.
  destruct (Ascii.eqb c sep) eqn:E.
  - apply Ascii.eqb_eq in E. subst c.
    destruct (split sep s) as [|p ps]; [congruence|].
    cbn in *. rewrite IH. reflexivity.
  - destruct (split sep s) as [|p ps]; [congruence|].
    destruct ps; cbn in *; rewrite <- IH; reflexivity.
Qed.

(** ** Fixed-point notation *)

Lemma length_append (s t : string) :
  String.length (s ++ t) = (String.length s + String.length t)%nat.
Proof.
  induction s as [|c s IH]; [reflexivity|].
  rewrite append_String. cbn [String.length]. rewrite IH. reflexivity.
Qed.

Lemma length_repeat_char (c : ascii) (n : nat) :
  String.length (repeat_char c n) = n.
Proof. induction n as [|n IH]; cbn; [reflexivity|]. rewrite IH. reflexivity. Qed.

Lemma length_drop (n : nat) (s : string) :
  String.length (drop n s) = (String.length s - n)%nat.
Proof.
  revert s. induction n as [|n IH]; intros [|c s]; cbn; try reflexivity.
  apply IH.
Qed.

Lemma all_digits_append (s t : string) :
  all_digits (s ++ t) = all_digits s && all_digits t.
Proof.
  induction s as [|c s IH]; push_append; cbn; [reflexivity|].
  rewrite IH. apply andb_assoc.
Qed.

Lemma all_digits_zeros (n : nat) : all_digits (repeat_char "0" n) = true.
Proof. induction n as [|n IH]; cbn; [reflexivity|exact IH]. Qed.

Lemma all_digits_take (n : nat) (s : string) :
  all_digits s = true -> all_digits (take n s) = true.
Proof.
  revert s. induction n as [|n IH]; intros [|c s]; cbn; try reflexivity.
  intros H. apply andb_true_iff in H as [Hc Hs].
  rewrite Hc. exact (IH s Hs).
Qed.

Lemma all_digits_drop (n : nat) (s : string) :
  all_digits s = true -> all_digits (drop n s) = true.
Proof.
  revert s. induction n as [|n IH]; intros [|c s]; cbn; try (intros H; exact H).
  intros H. apply andb_true_iff in H as [_ Hs]. exact (IH s Hs).
Qed.

(** A digit is no other character. *)
Lemma is_digit_other (c d : ascii) :
  is_digit c = true -> is_digit d = false -> Ascii.eqb c d = false.
Proof.
  intros Hc Hd. destruct (Ascii.eqb_spec c d) as [->|]; [congruence|reflexivity].
Qed.

Lemma all_digits_free (sep : ascii) (s : string) :
  is_digit sep = false -> all_digits s = true -> free_of sep s = true.
Proof.
  intros Hsep. induction s as [|c s IH]; cbn; [reflexivity|].
  intros H. apply andb_true_iff in H as [Hc Hs].
  rewrite (is_digit_other c sep Hc Hsep). exact (IH Hs).
Qed.

(** The decimal writing of an integer: digits, and at least one. *)
Lemma digits_all_digits (n : Z) :
  all_digits (digits n) = true /\ digits n <> EmptyString.
Proof.
  unfold digits. generalize (N.to_uint (Z.to_N n)). intros d. split.
  - assert (H : all_digits (NilEmpty.string_of_uint d) = true)
      by (induction d; cbn; auto).
    destruct d; [reflexivity|exact H..].
  - destruct d; discriminate.
Qed.

Lemma whole_number_digits (s : string) :
  s <> EmptyString -> all_digits s = true -> whole_number s = true.
Proof.
  destruct s as [|c s]; [congruence|]. intros _ H. cbn [whole_number].
  pose proof H as Hc. cbn in Hc. apply andb_true_iff in Hc as [Hc _].
  rewrite (is_digit_other c "-" Hc eq_refl). exact H.
Qed.

(** A sign and digits make a whole number. *)
Lemma whole_number_signed (neg : bool) (s : string) :
  s <> EmptyString -> all_digits s = true ->
  whole_number ((if neg then "-" else EmptyString) ++ s) = true.
Proof.
  intros Hne H. destruct neg; push_append.
  - cbn. rewrite H. destruct s; [congruence|reflexivity].
  - apply whole_number_digits; assumption.
Qed.

(** With [f > 0] places, [place_point] writes digits, at least one, the
    point, and exactly [f] digits. *)
Lemma place_point_parts (n : Z) (f : nat) :
  (0 < f)%nat ->
  exists whole frac,
    place_point n f = whole ++ "." ++ frac
    /\ whole <> EmptyString /\ all_digits whole = true
    /\ all_digits frac = true /\ String.length frac = f.
Proof.
  intros Hf. unfold place_point.
  destruct (f =? 0)%nat eqn:E; [apply Nat.eqb_eq in E; lia|].
  destruct (digits_all_digits n) as [Hdigits _].
  set (m := digits n) in *.
  set (m' := if (String.length m <=? f)%nat
             then repeat_char "0" (f + 1 - String.length m) ++ m else m).
  assert (Hlen : (f < String.length m')%nat).
  { unfold m'. destruct (String.length m <=? f)%nat eqn:Ek.
    - apply Nat.leb_le in Ek.
      rewrite length_append, length_repeat_char. lia.
    - apply Nat.leb_gt in Ek. exact Ek. }
  assert (Hall : all_digits m' = true).
  { unfold m'. destruct (String.length m <=? f)%nat; [|exact Hdigits].
    rewrite all_digits_append, all_digits_zeros. exact Hdigits. }
  exists (take (String.length m' - f) m'), (drop (String.length m' - f) m').
  split; [reflexivity|]. split.
  - destruct (String.length m' - f)%nat as [|k] eqn:Ek; [lia|].
    destruct m'; [cbn in Hlen; lia|discriminate].
  - split; [apply all_digits_take, Hall|].
    split; [apply all_digits_drop, Hall|]. rewrite length_drop. lia.
Qed.

Lemma decimals_signed (neg : bool) (whole frac : string) :
  whole <> EmptyString -> all_digits whole = true ->
  all_digits frac = true ->
  decimals (String.length frac)
    ((if neg then "-" else EmptyString) ++ whole ++ "." ++ frac) = true.
Proof.
  intros Hne Hwhole Hfrac. unfold decimals.
  rewrite <- append_assoc.
  change ("." ++ frac) with (String "." frac).
  rewrite split_cons, (split_free "." frac).
  - rewrite (whole_number_signed neg whole Hne Hwhole), Hfrac, Nat.eqb_refl.
    reflexivity.
  - apply all_digits_free; [reflexivity|exact Hfrac].
  - pose proof (all_digits_free "." whole eq_refl Hwhole) as Hfree.
    destruct neg; push_append; [cbn; exact Hfree|exact Hfree].
Qed.

Section FixedPoint.
Context {host : JsHost}.

(** In its fixed-point range [toFixed] writes a number with exactly the
    requested number of decimals. *)
Lemma toFixed_decimals (x : number) (f : nat) :
  (0 < f)%nat -> fixed_point_range x = true -> decimals f (toFixed x f) = true.
Proof.
  intros Hf. unfold fixed_point_range, toFixed.
  destruct (Prim2SF x) as [sx|sx| |sx m e]; try discriminate.
  - intros _.
    destruct (place_point_parts 0 f Hf)
      as (whole & frac & -> & Hne & Hwhole & Hfrac & <-).
    exact (decimals_signed false whole frac Hne Hwhole Hfrac).
  - intros Hrange. apply negb_true_iff in Hrange. rewrite Hrange.
    destruct (place_point_parts (nearest_scaled (Zpos m) e f) f Hf)
      as (whole & frac & -> & Hne & Hwhole & Hfrac & <-).
    exact (decimals_signed sx whole frac Hne Hwhole Hfrac).
Qed.

(** With no decimals requested, it writes a whole number. *)
Lemma toFixed_whole (x : number) :
  fixed_point_range x = true -> whole_number (toFixed x 0) = true.
Proof.
  unfold fixed_point_range, toFixed.
  destruct (Prim2SF x) as [sx|sx| |sx m e]; try discriminate.
  - intros _. reflexivity.
  - intros Hrange. apply negb_true_iff in Hrange. rewrite Hrange.
    unfold place_point. cbn [Nat.eqb].
    apply whole_number_signed; apply digits_all_digits.
Qed.

End FixedPoint.


(** ** Tariff codes *)

(** A code made of two separator-free prefix segments, a product code
    and a separator-free region parses back to the product code and the
    region, whatever separators the product code itself contains. *)
Lemma parseTariffCode_segments (fuel register product region : string) :
  free_of "-" fuel = true ->
  free_of "-" register = true ->
  free_of "-" region = true ->
  parseTariffCode (fuel ++ "-" ++ register ++ "-" ++ product ++ "-" ++ region)
  = (product, Some region).
Proof.
  intros Hfuel Hregister Hregion. unfold parseTariffCode.
  assert (Hsplit :
    split "-" (fuel ++ "-" ++ register ++ "-" ++ product ++ "-" ++ region)
    = fuel :: register :: (split "-" product ++ [region])%list).
  { push_append.
    rewrite (split_cons _ _ _ Hfuel), (split_cons _ _ _ Hregister).
    rewrite (split_snoc _ _ _ Hregion). reflexivity. }
  rewrite Hsplit, slice_2_m1.
  rewrite (index_last _ EmptyString) by discriminate.
  change (skipn 2 (fuel :: register :: ?l)) with l.
  rewrite removelast_last.
  change (List.last (fuel :: register :: ?l) EmptyString) with (List.last (register :: l) EmptyString).
  rewrite (join_split "-").
  replace (List.last (register :: split "-" product ++ [region]) EmptyString)
    with region; [reflexivity|].
  change (register :: split "-" product ++ [region])%list
    with ((register :: split "-" product) ++ [region])%list.
  symmetry. apply last_last.
Qed.

(** C5: the tariff code is split on "-"; the product code is what is
    left of the segments after the first two and the last are dropped,
    rejoined with "-"; the region letter is the last segment; and
    "E-1R-VAR-22-11-01-A" gives product code "VAR-22-11-01" and region
    letter "A". *)
Theorem parseTariffCode_spec :
  (forall tariffCode : string,
      parseTariffCode tariffCode
      = (join "-" (removelast (skipn 2 (split "-" tariffCode))),
         Some (List.last (split "-" tariffCode) EmptyString)))
  /\ parseTariffCode "E-1R-VAR-22-11-01-A" = ("VAR-22-11-01", Some "A").
Proof.
  split; [|reflexivity].
  intros tariffCode. unfold parseTariffCode.
  rewrite slice_2_m1, (index_last _ EmptyString) by apply split_not_nil.
  reflexivity.
Qed.

(** ** The current agreement *)

Section CurrentAgreement.
Context {host : JsHost}.

Lemma currentAgreement_snoc (ags : list agreement) (a : agreement) :
  currentAgreement (ags ++ [a])
  = later_agreement (currentAgreement ags) a.
Proof. unfold currentAgreement. apply fold_left_app. Qed.

Lemma Date_gt_true (a b : time_value) :
  Date_gt a b = true <-> exists x y, a = Some x /\ b = Some y /\ y < x.
Proof.
  unfold Date_gt. split.
  - destruct a as [x|], b as [y|]; try discriminate.
    intros H. apply Z.ltb_lt in H. eauto.
  - intros (x & y & -> & -> & H). apply Z.ltb_lt. exact H.
Qed.

Lemma Date_gt_false (x y : Z) : Date_gt (Some x) (Some y) = false -> x <= y.
Proof. cbn. intros H. apply Z.ltb_ge in H. exact H. Qed.

(** A non-empty list has a current agreement, taken from the list. *)
Lemma currentAgreement_some (ags : list agreement) :
  ags <> [] -> exists r, currentAgreement ags = Some r /\ In r ags.
Proof.
  induction ags as [|a ags IH] using rev_ind; [congruence|]. intros _.
  rewrite currentAgreement_snoc. unfold later_agreement.
  destruct ags as [|b ags'].
  - cbn. eauto.
  - destruct IH as (r & -> & Hin); [discriminate|].
    destruct (Date_gt _ _).
    + exists a. split; [reflexivity|]. apply in_or_app. cbn. auto.
    + exists r. split; [reflexivity|]. apply in_or_app. auto.
Qed.

(** C1, as the code has it: on a non-empty list of agreements whose
    [valid_to] are all dates ([null] counting as the epoch; a missing
    or unparseable [valid_to] is none), the selection returns an agreement
    of the list whose [valid_to] is the maximum: every agreement
    before it in input order ends strictly earlier, every agreement
    after it ends no later, so that among agreements sharing the
    maximum the first one is returned. *)
Theorem currentAgreement_latest_first (ags : list agreement) :
  ags <> [] ->
  Forall (fun a => valid_time a <> None) ags ->
  exists before r after t,
    ags = (before ++ r :: after)%list
    /\ currentAgreement ags = Some r
    /\ valid_time r = Some t
    /\ Forall (ends_before t) before
    /\ Forall (ends_by t) after.
Proof.
  induction ags as [|a ags IH] using rev_ind; [congruence|].
  intros _ Hall. apply Forall_app in Hall as [Hags Ha].
  inversion Ha as [|? ? Hdef _]; subst.
  destruct (valid_time a) as [u|] eqn:Hu; [clear Hdef|congruence].
  rewrite currentAgreement_snoc.
  destruct ags as [|b ags'].
  - exists [], a, [], u. cbn. repeat split; auto.
  - destruct IH as (before & r & after & t & Heq & Hcur & Ht & Hb & Haft);
      [discriminate|exact Hags|].
    rewrite Hcur. unfold later_agreement.
    fold (valid_time a). fold (valid_time r). rewrite Hu, Ht.
    destruct (Date_gt (Some u) (Some t)) eqn:Hgt.
    + apply Date_gt_true in Hgt as (x & y & [= <-] & [= <-] & Hlt).
      exists (b :: ags'), a, [], u.
      split; [reflexivity|]. split; [reflexivity|]. split; [exact Hu|].
      split; [|constructor].
      rewrite Heq. apply Forall_app. split; [|constructor].
      * eapply Forall_impl; [exact Hb|].
        intros c (v & Hv & Hlt'). exists v. split; [exact Hv|lia].
      * exists t. split; [exact Ht|lia].
      * eapply Forall_impl; [exact Haft|].
        intros c (v & Hv & Hle). exists v. split; [exact Hv|lia].
    + apply Date_gt_false in Hgt.
      exists before, r, (after ++ [a])%list, t.
      split; [rewrite Heq, <- app_assoc; reflexivity|].
      split; [reflexivity|]. split; [exact Ht|]. split; [exact Hb|].
      apply Forall_app. split; [exact Haft|].
      constructor; [|constructor]. exists u. split; [exact Hu|lia].
Qed.

(** Every dated agreement of the list ends no later than the current
    one, unless the current one has an invalid date (which only the
    first agreement of the list can keep). *)
Lemma currentAgreement_bound (ags : list agreement) (r a : agreement)
  (t : Z) :
  currentAgreement ags = Some r ->
  In a ags ->
  valid_time a = Some t ->
  valid_time r = None \/ exists u, valid_time r = Some u /\ t <= u.
Proof.
  revert r a t. induction ags as [|x ags IH] using rev_ind;
    intros r a t Hcur Hin Ha; [destruct Hin|].
  rewrite currentAgreement_snoc in Hcur.
  apply in_app_or in Hin.
  destruct (currentAgreement ags) as [r0|] eqn:Hr0; cbn in Hcur.
  - fold (valid_time x) in Hcur. fold (valid_time r0) in Hcur.
    destruct (Date_gt (valid_time x) (valid_time r0)) eqn:Hgt.
    + injection Hcur as <-.
      apply Date_gt_true in Hgt as (vx & v0 & Hx & H0 & Hlt).
      right. exists vx. split; [exact Hx|].
      destruct Hin as [Hin|[<-|[]]]; [|assert (t = vx) by congruence; lia].
      destruct (IH r0 a t eq_refl Hin Ha) as [Hnone|(u & Hu & Hle)];
        [congruence|].
      assert (u = v0) by congruence. lia.
    + injection Hcur as <-.
      destruct Hin as [Hin|[<-|[]]]; [exact (IH r0 a t eq_refl Hin Ha)|].
      destruct (valid_time r0) as [u|] eqn:Hu; [right|left; reflexivity].
      exists u. split; [reflexivity|].
      rewrite Ha in Hgt. apply Date_gt_false in Hgt. exact Hgt.
  - injection Hcur as <-.
    destruct ags as [|y ags'] using rev_ind.
    + destruct Hin as [[]|[<-|[]]]. right. exists t. split; [exact Ha|lia].
    + rewrite currentAgreement_snoc in Hr0. unfold later_agreement in Hr0.
      destruct (currentAgreement ags'); [destruct (Date_gt _ _)|];
        discriminate.
Qed.

(** C10: a [null] valid_to is compared as the epoch (time value 0);
    hence, when the list holds an agreement with a [null] valid_to and
    one whose valid_to is a date after the epoch, a current agreement
    is selected and its valid_to is not [null]. *)
Theorem currentAgreement_not_open_ended (ags : list agreement)
  (open dated : agreement) (t : Z) :
  In open ags -> valid_to open = JNull ->
  In dated ags -> valid_time dated = Some t -> 0 < t ->
  valid_time open = Some 0
  /\ exists r, currentAgreement ags = Some r /\ valid_to r <> JNull.
Proof.
  intros Hopen Hnull Hdated Ht Hpos. split.
  - unfold valid_time. rewrite Hnull. reflexivity.
  - destruct (currentAgreement_some ags) as (r & Hr & _).
    { intros ->. destruct Hopen. }
    exists r. split; [exact Hr|]. intros Hr_null.
    assert (H0 : valid_time r = Some 0)
      by (unfold valid_time; rewrite Hr_null; reflexivity).
    destruct (currentAgreement_bound ags r dated t Hr Hdated Ht)
      as [Hnone|(u & Hu & Hle)]; [congruence|].
    assert (u = 0) by congruence. lia.
Qed.

End CurrentAgreement.

(** ** The monad *)

Section MonadFacts.
Context {W A B : Type}.

Lemma bind_Return (m : M W A) (k : A -> M W B) s a s' :
  m s = (Return a, s') -> bind m k s = k a s'.
Proof. unfold bind. intros ->. reflexivity. Qed.

Lemma bind_Throw (m : M W A) (k : A -> M W B) s e s' :
  m s = (Throw e, s') -> bind m k s = (Throw e, s').
Proof. unfold bind. intros ->. reflexivity. Qed.

Lemma try_catch_Return (body : M W A) handler s a s' :
  body s = (Return a, s') -> try_catch body handler s = (Return a, s').
Proof. unfold try_catch. intros ->. reflexivity. Qed.

Lemma try_catch_Throw (body : M W A) handler s e s' :
  body s = (Throw e, s') -> try_catch body handler s = handler e s'.
Proof. unfold try_catch. intros ->. reflexivity. Qed.

Lemma await_inr (call : W -> axios_result A * W) s body w :
  call (world s) = (inr body, w) ->
  await call s = (Return body, with_world s w).
Proof. unfold await. intros ->. reflexivity. Qed.

Lemma await_inl (call : W -> axios_result A * W) s e w :
  call (world s) = (inl e, w) ->
  await call s = (Throw e, with_world s w).
Proof. unfold await. intros ->. reflexivity. Qed.

(** A handler that logs and rethrows keeps the error. *)
Lemma rethrow (body : M W A) (label : string) s e s' :
  body s = (Throw e, s') ->
  try_catch body
    (fun error => bind (console_error label (message error))
                    (fun _ => throw error)) s
  = (Throw e, with_line s' (Stderr, label ++ " " ++ message e)).
Proof. intros H. rewrite (try_catch_Throw _ _ _ _ _ H). reflexivity. Qed.
End MonadFacts.

(** ** Live usage *)

Section LiveUsage.
Context {host : JsHost}.
Context {W : Type} (env : World W) (octopusConfig : Config).

(** C3: [getLiveUsage] never fails outward: in every state it returns
    a number; and whenever its [try] block throws, whatever the error
    (network fault, failed authentication, missing device, missing
    telemetry), the returned number is 0 and the error's message has
    been written to the error console. *)
Theorem getLiveUsage_never_fails (s : state W) :
  (exists watts s', getLiveUsage env octopusConfig s = (Return watts, s'))
  /\ forall e s1,
      getLiveUsage_try env octopusConfig
        (with_line s (Stdout, "📊 Fetching live usage data..."))
      = (Throw e, s1) ->
      getLiveUsage env octopusConfig s
      = (Return PrimFloat.zero,
         with_line s1
           (Stderr, "❌ Error fetching live usage: " ++ message e)).
Proof.
  unfold getLiveUsage.
  rewrite (bind_Return (console_log _) _ s tt (with_line s _) eq_refl).
  split.
  - unfold try_catch.
    destruct (getLiveUsage_try _ _ _) as [[watts|e] s1]; cbn; eauto.
  - intros e s1 H. rewrite (try_catch_Throw _ _ _ _ _ H). reflexivity.
Qed.

(** C6, as the code has it: when the first telemetry reading has a
    [null] demand, [getLiveUsage] returns the number 0, after a
    warning on the standard console and without any error; the report
    then shows it as "0". *)
Theorem null_demand_is_zero (s s1 s2 : state W) (tok guid : string)
  (response : graphql telemetry_data) (w3 : W) (data : telemetry_data)
  (reading : telemetry_reading) (others : list telemetry_reading) :
  getKrakenToken env octopusConfig
    (with_line s (Stdout, "📊 Fetching live usage data..."))
  = (Return tok, s1) ->
  getMeterGuid env octopusConfig tok s1 = (Return guid, s2) ->
  post_smartMeterTelemetry env guid (JWT tok) (world s2)
  = (inr response, w3) ->
  gql_data response = Some data ->
  smartMeterTelemetry data = Some (reading :: others) ->
  demand reading = JNull ->
  getLiveUsage env octopusConfig s
  = (Return PrimFloat.zero,
     with_line (with_world s2 w3)
       (Stdout, "⚠️ No demand data available, returning 0"))
  /\ toFixed PrimFloat.zero 0 = "0".
Proof.
  intros Htok Hguid Hpost Hdata Hreadings Hnull.
  split; [|reflexivity].
  unfold getLiveUsage.
  rewrite (bind_Return (console_log _) _ s tt (with_line s _) eq_refl).
  apply try_catch_Return. unfold getLiveUsage_try.
  rewrite (bind_Return _ _ _ _ _ Htok), (bind_Return _ _ _ _ _ Hguid).
  rewrite (bind_Return _ _ _ _ _ (await_inr _ _ _ _ Hpost)).
  rewrite Hdata. cbn [read_nullable].
  rewrite (bind_Return (ret data) _ _ data _ eq_refl).
  rewrite Hreadings, Hnull. reflexivity.
Qed.

End LiveUsage.

(** ** Tariff resolution *)

Section TariffInfo.
Context {host : JsHost}.
Context {W : Type} (env : World W) (octopusConfig : Config).

Lemma mpan_absent_find (acc : account_record) :
  mpan_absent octopusConfig acc ->
  List.find (fun p =>
               existsb (has_mpan octopusConfig) (electricity_meter_points p))
    (properties acc)
  = None.
Proof.
  unfold mpan_absent. induction 1 as [|p ps Hp _ IH]; [reflexivity|].
  cbn. rewrite IH.
  replace (existsb _ _) with false; [reflexivity|].
  symmetry. induction Hp as [|e es He _ IHe]; [reflexivity|].
  cbn. rewrite IHe. unfold has_mpan.
  apply String.eqb_neq in He. rewrite He. reflexivity.
Qed.

(** C2, as the code has it: [getTariffInfo] throws, and returns no
    tariff, whenever the fetched account has no property whose meter
    points contain the configured MPAN, or the matching meter point has
    an empty list of agreements, or the fetched product has no tariff
    entry for the parsed region letter.  What it throws is its own
    [Error] "MPAN ... not found in any property" in the first case and
    the engine's [TypeError] for a failed read in the two others: of
    [tariff_code] on [null]; of [direct_debit_monthly] on [undefined],
    or, when the key of the region names a member of
    [Object.prototype], of [standard_unit_rate_inc_vat] on
    [undefined]. *)
Theorem getTariffInfo_not_found (s : state W) (why : missing_record) :
  record_missing env octopusConfig s why ->
  exists s',
    getTariffInfo env octopusConfig s
    = (Throw (missing_record_error octopusConfig why), s').
Proof.
  unfold getTariffInfo, fetch_account.
  intros [acc w1 Hacc Habsent
         |acc w1 point Hacc Hpoint Hnone
         |acc w1 point current productRes w2 Hacc Hpoint Hcur Hprod Hentry];
    eexists; apply rethrow; unfold getTariffInfo_try;
    rewrite (bind_Return _ _ _ _ _ (await_inr _ _ _ _ Hacc)).
  - rewrite (mpan_absent_find _ Habsent). reflexivity.
  - unfold mpanPoint_of in Hpoint.
    destruct (List.find _ (properties acc)) as [p|]; [|discriminate].
    rewrite Hpoint. cbn [read_optional].
    rewrite (bind_Return (ret point) _ _ point _ eq_refl).
    rewrite Hnone. reflexivity.
  - unfold mpanPoint_of in Hpoint.
    destruct (List.find _ (properties acc)) as [p|]; [|discriminate].
    rewrite Hpoint. cbn [read_optional].
    rewrite (bind_Return (ret point) _ _ point _ eq_refl).
    rewrite Hcur. cbn [read_nullable].
    rewrite (bind_Return (ret current) _ _ current _ eq_refl).
    destruct (parseTariffCode (tariff_code current))
      as [productCode regionLetter] eqn:Hparse.
    cbn [fst snd] in Hprod, Hentry.
    rewrite (bind_Return _ _ _ _ _
               (await_inr (get_product env productCode) (with_world s w1)
                  _ _ Hprod)).
    unfold get_property, missing_record_error. rewrite Hentry.
    destruct (inherited _); reflexivity.
Qed.

End TariffInfo.

(** ** Consumption windows *)

Lemma quanta_total_Permutation (l l' : list interval_reading) :
  Permutation l l' -> quanta_total l = quanta_total l'.
Proof.
  unfold quanta_total.
  induction 1 as [|x l l' _ IH|x y l|l l' l'' _ IH1 _ IH2]; cbn [fold_right].
  - reflexivity.
  - rewrite IH. reflexivity.
  - destruct (in_quanta (consumption x)), (in_quanta (consumption y)); lia.
  - congruence.
Qed.

Lemma adds_exactly_from_total (readings : list interval_reading) :
  forall (sum : number) (a : Z),
    in_quanta sum = Some a ->
    adds_exactly_from sum readings = true ->
    in_quanta
      (fold_left (fun acc reading => (acc + consumption reading)%float)
         readings sum)
    = Some (a + quanta_total readings).
Proof.
  induction readings as [|reading rest IH]; intros sum a Ha Hexact; cbn.
  - rewrite Ha. f_equal. lia.
  - cbn in Hexact. rewrite Ha in Hexact.
    destruct (in_quanta (consumption reading)) as [b|]; [|discriminate].
    destruct (in_quanta (sum + consumption reading)%float) as [c|] eqn:Hc;
      [|discriminate].
    apply andb_true_iff in Hexact as [Hsum Hrest].
    apply Z.eqb_eq in Hsum. subst c.
    rewrite (IH _ _ Hc Hrest). unfold quanta_total. f_equal. lia.
Qed.

(** *** Numbers of equal value are equal *)

Lemma digits2_pos_bounds (m : positive) :
  2 ^ (Zpos (digits2_pos m) - 1) <= Zpos m < 2 ^ Zpos (digits2_pos m).
Proof.
  induction m as [m IH|m IH|]; cbn [digits2_pos].
  - rewrite Pos2Z.inj_succ, Pos2Z.inj_xI.
    replace (Z.succ (Zpos (digits2_pos m)) - 1) with (Z.succ (Zpos (digits2_pos m) - 1)) by lia.
    rewrite !Z.pow_succ_r by lia.
    destruct IH as [IH1 IH2]. revert IH1 IH2.
    generalize (2 ^ (Zpos (digits2_pos m) - 1)) (2 ^ Zpos (digits2_pos m)). lia.
  - rewrite Pos2Z.inj_succ. change (Zpos m~0) with (2 * Zpos m).
    replace (Z.succ (Zpos (digits2_pos m)) - 1) with (Z.succ (Zpos (digits2_pos m) - 1)) by lia.
    rewrite !Z.pow_succ_r by lia.
    destruct IH as [IH1 IH2]. revert IH1 IH2.
    generalize (2 ^ (Zpos (digits2_pos m) - 1)) (2 ^ Zpos (digits2_pos m)). lia.
  - cbn. lia.
Qed.

(** A valid finite number has an exponent of at least -1074 and a
    mantissa below 2^53, of at least 2^52 above the least exponent. *)
Lemma bounded_shape (m : positive) (e : Z) :
  bounded prec emax m e = true ->
  -1074 <= e /\ Zpos m < 2 ^ 53 /\ (-1074 < e -> 2 ^ 52 <= Zpos m).
Proof.
  unfold bounded, canonical_mantissa, fexp, SpecFloat.emin, prec, emax.
  intros H. apply andb_true_iff in H as [H _]. apply Z.eqb_eq in H.
  pose proof (digits2_pos_bounds m) as [Hlow Hhigh].
  set (d := Zpos (digits2_pos m)) in *.
  assert (Hd : 0 < d) by (unfold d; lia).
  split; [lia|]. split.
  - assert (d <= 53) by lia.
    apply Z.lt_le_trans with (1 := Hhigh). apply Z.pow_le_mono_r; lia.
  - intros He. assert (d = 53) by lia.
    replace 52 with (d - 1) by lia. exact Hlow.
Qed.

Lemma canonical_unique (m m' : positive) (e e' : Z) :
  bounded prec emax m e = true ->
  bounded prec emax m' e' = true ->
  Z.shiftl (Zpos m) (e + 1074) = Z.shiftl (Zpos m') (e' + 1074) ->
  m = m' /\ e = e'.
Proof.
  intros Hb Hb' Heq.
  apply bounded_shape in Hb as (He & Hm & Hnorm).
  apply bounded_shape in Hb' as (He' & Hm' & Hnorm').
  rewrite !Z.shiftl_mul_pow2 in Heq by lia.
  assert (Hstep : forall a b x y : Z,
             0 <= a < b -> 0 < x -> 2 ^ 52 <= y -> x * 2 ^ a = y * 2 ^ b ->
             2 ^ 53 <= x).
  { intros a b x y Hab Hx Hy H.
    replace b with (a + (b - a)) in H by lia.
    rewrite Z.pow_add_r in H by lia.
    assert (HP : 0 < 2 ^ a) by (apply Z.pow_pos_nonneg; lia).
    assert (HQ : 2 ^ 1 <= 2 ^ (b - a)) by (apply Z.pow_le_mono_r; lia).
    revert H HP HQ. generalize (2 ^ a) (2 ^ (b - a)). intros P Q H HP HQ.
    assert (Hx' : x = y * Q).
    { apply Z.mul_reg_r with P; [lia|]. rewrite H. ring. }
    change (2 ^ 1) with 2 in HQ. change (2 ^ 53) with (2 ^ 52 * 2).
    subst x. apply Z.mul_le_mono_nonneg; lia. }
  destruct (Z.lt_trichotomy e e') as [Hlt|[->|Hgt]].
  - pose proof (Hstep (e + 1074) (e' + 1074) (Zpos m) (Zpos m')
                  ltac:(lia) ltac:(lia) ltac:(apply Hnorm'; lia) Heq). lia.
  - apply Z.mul_reg_r in Heq; [|apply Z.pow_nonzero; lia].
    split; [congruence|reflexivity].
  - pose proof (Hstep (e' + 1074) (e + 1074) (Zpos m') (Zpos m)
                  ltac:(lia) ltac:(lia) ltac:(apply Hnorm; lia) (eq_sym Heq)). lia.
Qed.

Lemma shiftl_positive (m : positive) (a : Z) : 0 <= a -> 0 < Z.shiftl (Zpos m) a.
Proof. intros Ha. rewrite Z.shiftl_mul_pow2 by lia. apply Z.mul_pos_pos; [lia|apply Z.pow_pos_nonneg; lia]. Qed.

(** Two finite numbers of the same value are equal for [===]. *)
Lemma in_quanta_eqb (x y : float) (q : Z) :
  in_quanta x = Some q -> in_quanta y = Some q -> (x =? y)%float = true.
Proof.
  rewrite FloatAxioms.eqb_spec. unfold in_quanta, SFeqb.
  pose proof (Prim2SF_valid x) as Hx. pose proof (Prim2SF_valid y) as Hy.
  destruct (Prim2SF x) as [sx|sx| |sx mx ex], (Prim2SF y) as [sy|sy| |sy my ey];
    try discriminate; cbn [valid_binary] in Hx, Hy; try reflexivity.
  - intros [= <-] [= H].
    pose proof (shiftl_positive my (ey + 1074) ltac:(apply bounded_shape in Hy; lia)).
    destruct sy; lia.
  - intros [= H] [= <-].
    pose proof (shiftl_positive mx (ex + 1074) ltac:(apply bounded_shape in Hx; lia)).
    destruct sx; lia.
  - intros [= Hqx] [= Hqy].
    pose proof (shiftl_positive mx (ex + 1074) ltac:(apply bounded_shape in Hx; lia)).
    pose proof (shiftl_positive my (ey + 1074) ltac:(apply bounded_shape in Hy; lia)).
    assert (sx = sy) as -> by (destruct sx, sy; try reflexivity; lia).
    destruct (canonical_unique mx my ex ey Hx Hy) as [-> ->];
      [destruct sy; lia|].
    cbn. rewrite Z.compare_refl, Pos.compare_cont_refl. destruct sy; reflexivity.
Qed.

(** C8, as the code has it: the empty list sums to 0; and two orderings
    of the same readings give equal totals ([===]) whenever no addition
    rounds in either order, as in exact arithmetic. *)
Theorem totalUsage_order :
  totalUsage [] = PrimFloat.zero
  /\ forall l l' : list interval_reading,
      Permutation l l' ->
      adds_exactly l = true ->
      adds_exactly l' = true ->
      PrimFloat.eqb (totalUsage l) (totalUsage l') = true.
Proof.
  split; [reflexivity|].
  intros l l' Hperm Hl Hl'.
  apply (in_quanta_eqb _ _ (0 + quanta_total l)); unfold totalUsage.
  - exact (adds_exactly_from_total l PrimFloat.zero 0 eq_refl Hl).
  - rewrite (quanta_total_Permutation _ _ Hperm).
    exact (adds_exactly_from_total l' PrimFloat.zero 0 eq_refl Hl').
Qed.

Section Windows.
Context {host : JsHost}.
Context {W : Type} (env : World W) (octopusConfig : Config).





End Windows.

(** ** The status report *)

Section StatusMessage.
Context {host : JsHost}.
Context {W : Type} (env : World W) (octopusConfig : Config).

(** C4: [generateStatusMessage] never throws: in every state it
    returns a text; and whenever an error propagates from the tariff
    resolution or from either consumption aggregation, the text is
    exactly the fixed apology and the cause is on the error console. *)
Theorem generateStatusMessage_never_throws (s : state W) :
  (exists text s',
      generateStatusMessage env octopusConfig s = (Return text, s'))
  /\ forall e s_end,
      aggregation_fails env octopusConfig s e s_end ->
      generateStatusMessage env octopusConfig s
      = (Return "❌ Error fetching data. Please try again later.",
         with_line s_end
           (Stderr, "Error generating status message: " ++ message e)).
Proof.
  unfold generateStatusMessage. split.
  - unfold try_catch.
    destruct (generateStatusMessage_try _ _ _) as [[text|e] s1];
      cbn; eauto.
  - intros e s_end Hfail.
    assert (Htry : generateStatusMessage_try env octopusConfig s
                   = (Throw e, s_end)).
    { unfold generateStatusMessage_try.
      destruct Hfail as [live s1 Hlive Hy
                        |live s1 y s2 Hlive Hy Hm
                        |live s1 y s2 m s3 Hlive Hy Hm Ht];
        rewrite (bind_Return _ _ _ _ _ Hlive).
      - apply bind_Throw, Hy.
      - rewrite (bind_Return _ _ _ _ _ Hy). apply bind_Throw, Hm.
      - rewrite (bind_Return _ _ _ _ _ Hy), (bind_Return _ _ _ _ _ Hm).
        apply bind_Throw, Ht. }
    rewrite (try_catch_Throw _ _ _ _ _ Htry). reflexivity.
Qed.

(** C9, as the code has it: when its four steps return,
    [generateStatusMessage] returns the sections in this order: the
    heading, the live usage, yesterday's usage, the last 30 days, the
    tariff, and the "Last Updated" line with the UTC date, time and the
    letters UTC.  The live usage of the report is written in whole
    watts whenever it is a finite number below 10^21 in magnitude, and
    each usage and each cost of the report with exactly 2 decimals
    whenever it is one; for the other numbers (NaN, the infinities, the
    numbers from 10^21 on) [toFixed] does not write a decimal number. *)
Theorem generateStatusMessage_sections (s s1 s2 s3 s4 : state W)
  (liveUsage : number) (yesterday monthly : consumption_window)
  (tariff : tariff_info) (now : Z) (w5 : W) :
  getLiveUsage env octopusConfig s = (Return liveUsage, s1) ->
  getYesterdayUsage env octopusConfig s1 = (Return yesterday, s2) ->
  getMonthlyUsage env octopusConfig s2 = (Return monthly, s3) ->
  getTariffInfo env octopusConfig s3 = (Return tariff, s4) ->
  clock env (world s4) = (now, w5) ->
  generateStatusMessage env octopusConfig s
  = (Return
       ("🔌 *Octopus Energy Status*" ++ newline ++ newline
        ++ "*Current Usage:* " ++ toFixed liveUsage 0 ++ "W"
        ++ newline ++ newline
        ++ "*Yesterday's Usage:*" ++ newline
        ++ "Usage: " ++ toFixed (usage yesterday) 2 ++ " kWh" ++ newline
        ++ "Cost: £" ++ toFixed (cost yesterday) 2
        ++ newline ++ newline
        ++ "*Last 30 Days:*" ++ newline
        ++ "Usage: " ++ toFixed (usage monthly) 2 ++ " kWh" ++ newline
        ++ "Cost: £" ++ toFixed (cost monthly) 2
        ++ newline ++ newline
        ++ "*Tariff Information:*" ++ newline
        ++ "Name: " ++ name tariff ++ newline
        ++ "Unit Rate: £" ++ unit_rate tariff ++ "/kWh" ++ newline
        ++ "Standing Charge: £" ++ standing_charge tariff ++ "/day"
        ++ newline ++ newline
        ++ "Last Updated: " ++ format_date now ++ " " ++ format_time now
        ++ " UTC"),
     with_world s4 w5)
  /\ (fixed_point_range liveUsage = true ->
      whole_number (toFixed liveUsage 0) = true)
  /\ Forall (fun x => fixed_point_range x = true ->
                      decimals 2 (toFixed x 2) = true)
       [usage yesterday; cost yesterday; usage monthly; cost monthly].
Proof.
  intros Hlive Hy Hm Ht Hclock. split.
  2:{ split; [apply toFixed_whole|].
      repeat constructor; apply toFixed_decimals; lia. }
  unfold generateStatusMessage. apply try_catch_Return.
  unfold generateStatusMessage_try.
  rewrite (bind_Return _ _ _ _ _ Hlive), (bind_Return _ _ _ _ _ Hy).
  rewrite (bind_Return _ _ _ _ _ Hm), (bind_Return _ _ _ _ _ Ht).
  unfold formatTimestamp, bind, moment. rewrite Hclock.
  unfold ret, status_text, formatUsageData, format_utc, newline.
  rewrite !append_assoc. reflexivity.
Qed.

End StatusMessage.

(** * Further properties of the code *)

(** ** Tariff codes *)

Lemma split_pieces_free (sep : ascii) (s : string) :
  Forall (fun piece => free_of sep piece = true) (split sep s).
Proof.
  induction s as [|c s IH]; cbn.
  - repeat constructor.
  - destruct (Ascii.eqb c sep) eqn:E.
    + constructor; [reflexivity|exact IH].
    + destruct (split sep s) as [|piece pieces].
      * constructor; [cbn; rewrite E; reflexivity|constructor].
      * inversion IH as [|? ? Hpiece Hpieces]; subst.
        constructor; [cbn; rewrite E; exact Hpiece|exact Hpieces].
Qed.

Lemma last_Forall {A} (P : A -> Prop) (l : list A) (d : A) :
  l <> [] -> Forall P l -> P (List.last l d).
Proof.
  induction l as [|a l IH]; [congruence|]. intros _ Hall.
  inversion Hall as [|? ? Ha Hl]; subst.
  destruct l as [|b l']; [exact Ha|]. apply IH; [discriminate|exact Hl].
Qed.

(** Whatever the tariff code, the region letter is defined (never
    [undefined]) and holds no "-"; the product request is therefore
    always keyed by an underscore and a dash-free text. *)
Theorem parseTariffCode_region (tariffCode : string) :
  exists region,
    snd (parseTariffCode tariffCode) = Some region
    /\ free_of "-" region = true.
Proof.
  exists (List.last (split "-" tariffCode) EmptyString).
  unfold parseTariffCode. cbn [snd]. split.
  - apply index_last, split_not_nil.
  - apply last_Forall; [apply split_not_nil|apply split_pieces_free].
Qed.

(** A tariff code with fewer than four segments has an empty product
    code: nothing is left between the two prefix segments and the
    region. *)
Theorem parseTariffCode_short (tariffCode : string) :
  (List.length (split "-" tariffCode) <= 3)%nat ->
  fst (parseTariffCode tariffCode) = EmptyString.
Proof.
  intros Hlen. unfold parseTariffCode. cbn [fst]. rewrite slice_2_m1.
  destruct (split "-" tariffCode) as [|a [|b [|c [|d rest]]]];
    try reflexivity.
  cbn [List.length] in Hlen. lia.
Qed.

(** ** The current agreement, beyond dated lists *)

Section CurrentAgreementEdges.
Context {host : JsHost}.

(** Once an agreement with an invalid date is the candidate, no later
    agreement replaces it. *)
Lemma later_agreement_invalid (a : agreement) (rest : list agreement) :
  valid_time a = None ->
  fold_left later_agreement rest (Some a) = Some a.
Proof.
  intros Ha. induction rest as [|b rest IH]; [reflexivity|].
  cbn [fold_left later_agreement]. fold (valid_time b). fold (valid_time a).
  rewrite Ha. destruct (valid_time b); cbn [Date_gt]; exact IH.
Qed.

(** A candidate is replaced only by an agreement with a valid date. *)
Lemma later_agreement_keeps (candidate : agreement) (rest : list agreement)
  (r : agreement) :
  fold_left later_agreement rest (Some candidate) = Some r ->
  r = candidate \/ valid_time r <> None.
Proof.
  revert candidate. induction rest as [|b rest IH]; intros candidate.
  - cbn. intros [= <-]. left. reflexivity.
  - cbn [fold_left later_agreement].
    fold (valid_time b). fold (valid_time candidate).
    destruct (Date_gt (valid_time b) (valid_time candidate)) eqn:Hgt.
    + intros H. right. destruct (IH b H) as [->|Hr]; [|exact Hr].
      apply Date_gt_true in Hgt as (x & _ & Hx & _). congruence.
    + apply IH.
Qed.

(** The selection is [null] exactly on the empty list, and otherwise one
    of the agreements of the list. *)
Theorem currentAgreement_member (ags : list agreement) :
  (currentAgreement ags = None <-> ags = [])
  /\ forall r, currentAgreement ags = Some r -> In r ags.
Proof.
  split; [split|].
  - intros Hnone. destruct ags as [|a ags']; [reflexivity|].
    destruct (currentAgreement_some (a :: ags')) as (r & Hr & _);
      [discriminate|congruence].
  - intros ->. reflexivity.
  - intros r Hr. destruct ags as [|a ags']; [discriminate|].
    destruct (currentAgreement_some (a :: ags')) as (r' & Hr' & Hin);
      [discriminate|]. congruence.
Qed.

(** When the first agreement has an invalid date (a missing or
    unparseable valid_to), it is selected whatever follows it. *)
Theorem currentAgreement_invalid_first (a : agreement)
  (rest : list agreement) :
  valid_time a = None ->
  currentAgreement (a :: rest) = Some a.
Proof. intros Ha. exact (later_agreement_invalid a rest Ha). Qed.

(** An agreement with an invalid date is selected only as the first of
    the list. *)
Theorem currentAgreement_invalid_only_first (a r : agreement)
  (rest : list agreement) :
  currentAgreement (a :: rest) = Some r ->
  valid_time r = None ->
  r = a.
Proof.
  intros Hr Hnone.
  destruct (later_agreement_keeps a rest r Hr) as [->|Hvalid];
    [reflexivity|congruence].
Qed.

(** Agreements added after the list leave the selection as it is when
    none of them ends later than the selected one. *)
Theorem currentAgreement_app_stable (ags extra : list agreement)
  (r : agreement) (t : Z) :
  currentAgreement ags = Some r ->
  valid_time r = Some t ->
  Forall (fun a => forall u, valid_time a = Some u -> u <= t) extra ->
  currentAgreement (ags ++ extra) = Some r.
Proof.
  intros Hr Ht Hextra. unfold currentAgreement in *.
  rewrite fold_left_app, Hr. clear Hr.
  induction Hextra as [|a extra Ha _ IH]; [reflexivity|].
  cbn [fold_left later_agreement]. fold (valid_time a). fold (valid_time r).
  rewrite Ht. destruct (valid_time a) as [u|] eqn:Hu; cbn [Date_gt].
  - specialize (Ha u eq_refl).
    destruct (t <? u) eqn:E; [apply Z.ltb_lt in E; lia|exact IH].
  - exact IH.
Qed.

End CurrentAgreementEdges.

(** Unfolds the monad, so that a run becomes a nest of [match]es on the
    provider's answers. *)
Ltac run_monad :=
  unfold bind, try_catch, await, moment, read_nullable, read_optional,
    ret, throw, console_log, console_error, emit in *.

(** ** The three steps of the live usage *)

Section Handshake.
Context {host : JsHost}.
Context {W : Type} (env : World W) (octopusConfig : Config).

(** [getKrakenToken] returns a token exactly when the provider answers
    the mutation with data that carry one; it then returns that token,
    having written its two progress lines and nothing else. *)
Theorem getKrakenToken_returns (s s' : state W) (tok : string) :
  getKrakenToken env octopusConfig s = (Return tok, s')
  <-> exists response w data obtained,
      post_obtainKrakenToken env (apiKey octopusConfig) (world s)
      = (inr response, w)
      /\ gql_data response = Some data
      /\ obtainKrakenToken data = Some obtained
      /\ token obtained = tok
      /\ s' = with_line
                (with_world
                   (with_line s (Stdout, "🔑 Obtaining Kraken token...")) w)
                (Stdout, "✅ Kraken token obtained successfully").
Proof.
  unfold getKrakenToken. run_monad. cbn [world with_line].
  destruct (post_obtainKrakenToken env (apiKey octopusConfig) (world s))
    as [[e|response] w]; cbn.
  - split; [discriminate|]. intros (? & ? & ? & ? & [=] & _).
  - destruct (gql_data response) as [data|] eqn:Hdata; cbn.
    + destruct (obtainKrakenToken data) as [obtained|] eqn:Hobtained; cbn.
      * split.
        -- intros [= <- <-]. exists response, w, data, obtained.
           repeat split; auto.
        -- intros (r & w' & d & o & [= <- <-] & Hd & Ho & <- & ->).
           rewrite Hdata in Hd. injection Hd as <-.
           rewrite Hobtained in Ho. injection Ho as <-. reflexivity.
      * split; [discriminate|].
        intros (r & w' & d & o & [= <- <-] & Hd & Ho & _).
        rewrite Hdata in Hd. injection Hd as <-. congruence.
    + split; [discriminate|].
      intros (r & w' & d & o & [= <- <-] & Hd & _). congruence.
Qed.

(** When a list on the way from the account to a device is [null] or
    empty, [getMeterGuid] throws the error that names the list, after
    writing its message on the error console. *)
Theorem getMeterGuid_chain_broken (s : state W) (tok : string)
  (response : graphql account_data) (w : W) (data : account_data)
  (acc : account_devices) (why : missing_link) :
  post_account_devices env (OCTOPUS_ACCOUNT_NUMBER octopusConfig) (JWT tok)
    (world s) = (inr response, w) ->
  gql_data response = Some data ->
  account data = Some acc ->
  chain_broken acc why ->
  getMeterGuid env octopusConfig tok s
  = (Throw (missing_link_error why),
     with_line
       (with_world (with_line s (Stdout, "🔍 Looking up meter GUID...")) w)
       (Stderr,
        "❌ Error getting meter GUID: " ++ message (missing_link_error why))).
Proof.
  intros Hpost Hdata Hacc Hbroken.
  unfold getMeterGuid. run_monad. cbn [world with_line].
  rewrite Hpost, Hdata. cbn. rewrite Hacc. cbn.
  destruct Hbroken as [[H|H]
                      |a others point Ha Hpoint [H|H]
                      |a others point m others' Ha Hpoint Hm [H|H]];
    rewrite ?Ha; cbn; rewrite ?Hpoint; cbn; rewrite ?Hm; cbn;
    rewrite H; reflexivity.
Qed.

(** [getMeterGuid] returns the identifier of the first smart device of
    the first meter of the first agreement, whatever the other
    agreements, meters and devices are. *)
Theorem getMeterGuid_first_device (s : state W) (tok : string)
  (response : graphql account_data) (w : W) (data : account_data)
  (acc : account_devices)
  (agreement0 : electricity_agreement) (agreements' : list electricity_agreement)
  (point : meter_point_devices) (meter0 : meter) (meters' : list meter)
  (device0 : smart_device) (devices' : list smart_device) :
  post_account_devices env (OCTOPUS_ACCOUNT_NUMBER octopusConfig) (JWT tok)
    (world s) = (inr response, w) ->
  gql_data response = Some data ->
  account data = Some acc ->
  electricityAgreements acc = Some (agreement0 :: agreements') ->
  meterPoint agreement0 = Some point ->
  meters point = Some (meter0 :: meters') ->
  smartDevices meter0 = Some (device0 :: devices') ->
  getMeterGuid env octopusConfig tok s
  = (Return (deviceId device0),
     with_line
       (with_world (with_line s (Stdout, "🔍 Looking up meter GUID...")) w)
       (Stdout, "✅ Meter GUID found successfully")).
Proof.
  intros Hpost Hdata Hacc Ha Hpoint Hm Hd.
  unfold getMeterGuid. run_monad. cbn [world with_line].
  rewrite Hpost, Hdata. cbn. rewrite Hacc. cbn. rewrite Ha. cbn.
  rewrite Hpoint. cbn. rewrite Hm, Hd. reflexivity.
Qed.

(** When the token request fails, [getLiveUsage] returns 0 without
    asking for the device or for the telemetry: the world is left as
    the token request left it, and the console holds the four lines of
    the attempt. *)
Theorem getLiveUsage_token_failure (s : state W) (e : js_error) (w : W) :
  post_obtainKrakenToken env (apiKey octopusConfig) (world s) = (inl e, w) ->
  getLiveUsage env octopusConfig s
  = (Return PrimFloat.zero,
     {| world := w;
        console :=
          console s
            ++ [ (Stdout, "📊 Fetching live usage data...");
                 (Stdout, "🔑 Obtaining Kraken token...");
                 (Stderr, "❌ Error obtaining Kraken token: " ++ message e);
                 (Stderr, "❌ Error fetching live usage: " ++ message e) ] |}).
Proof.
  intros Hpost.
  unfold getLiveUsage, getLiveUsage_try, getKrakenToken. run_monad.
  cbn [world with_line]. rewrite Hpost. cbn.
  unfold with_line, with_world. cbn. rewrite <- !app_assoc. reflexivity.
Qed.

(** When the first telemetry reading has a demand that is not [null],
    [getLiveUsage] returns [Number(demand)]: the number itself, the
    value of a numeric string, NaN for a missing field. *)
Theorem getLiveUsage_demand (s s1 s2 : state W) (tok guid : string)
  (response : graphql telemetry_data) (w3 : W) (data : telemetry_data)
  (reading : telemetry_reading) (others : list telemetry_reading) :
  getKrakenToken env octopusConfig
    (with_line s (Stdout, "📊 Fetching live usage data..."))
  = (Return tok, s1) ->
  getMeterGuid env octopusConfig tok s1 = (Return guid, s2) ->
  post_smartMeterTelemetry env guid (JWT tok) (world s2)
  = (inr response, w3) ->
  gql_data response = Some data ->
  smartMeterTelemetry data = Some (reading :: others) ->
  demand reading <> JNull ->
  getLiveUsage env octopusConfig s
  = (Return (Number (demand reading)),
     with_line (with_world s2 w3)
       (Stdout,
        "✅ Live usage data received: "
        ++ jsval_toString (demand reading) ++ "W")).
Proof.
  intros Htok Hguid Hpost Hdata Hreadings Hpresent.
  unfold getLiveUsage.
  rewrite (bind_Return (console_log _) _ s tt (with_line s _) eq_refl).
  apply try_catch_Return. unfold getLiveUsage_try.
  rewrite (bind_Return _ _ _ _ _ Htok), (bind_Return _ _ _ _ _ Hguid).
  rewrite (bind_Return _ _ _ _ _ (await_inr _ _ _ _ Hpost)).
  rewrite Hdata. cbn [read_nullable].
  rewrite (bind_Return (ret data) _ _ data _ eq_refl).
  rewrite Hreadings.
  destruct (demand reading); [reflexivity|congruence|reflexivity..].
Qed.

End Handshake.

(** ** Tariff resolution, beyond the missing records *)

Section TariffPaths.
Context {host : JsHost}.
Context {W : Type} (env : World W) (octopusConfig : Config).

(** The run of [getTariffInfo_try] once the account is fetched and the
    current agreement of the matching meter point is known. *)
Lemma getTariffInfo_try_to_product (s : state W) (acc : account_record)
  (w1 : W) (point : electricity_meter_point) (current : agreement) :
  fetch_account env octopusConfig (world s) = (inr acc, w1) ->
  mpanPoint_of octopusConfig acc = Some point ->
  currentAgreement (agreements point) = Some current ->
  getTariffInfo_try env octopusConfig s
  = (let '(productCode, regionLetter) :=
       parseTariffCode (tariff_code current) in
     bind (await (get_product env productCode))
       (fun productRes =>
          bind (read_looked_up
                  (get_property
                     (single_register_electricity_tariffs productRes)
                     ("_" ++ show_undefined regionLetter))
                  direct_debit_monthly "direct_debit_monthly")
            (fun details =>
               bind (read_optional details "standard_unit_rate_inc_vat")
                 (fun details =>
                    ret {| name := display_name productRes;
                           unit_rate :=
                             toFixed
                               (standard_unit_rate_inc_vat details / 100)%float
                               4;
                           standing_charge :=
                             toFixed
                               (standing_charge_inc_vat details / 100)%float
                               2 |}))))
      (with_world s w1).
Proof.
  unfold fetch_account, mpanPoint_of. intros Hacc Hpoint Hcur.
  unfold getTariffInfo_try.
  rewrite (bind_Return _ _ _ _ _ (await_inr _ _ _ _ Hacc)).
  destruct (List.find _ (properties acc)) as [p|]; [|discriminate].
  rewrite Hpoint. cbn [read_optional].
  rewrite (bind_Return (ret point) _ _ point _ eq_refl).
  rewrite Hcur. cbn [read_nullable].
  rewrite (bind_Return (ret current) _ _ current _ eq_refl).
  destruct (parseTariffCode (tariff_code current)); reflexivity.
Qed.

(** [getTariffInfo] resolves the tariff from the first meter point with
    the configured MPAN, its current agreement, the product of its
    tariff code and the monthly direct debit branch of its region: the
    name is the product's, the unit rate and the standing charge are
    the branch's pence divided by 100, with 4 and 2 decimals; nothing
    is written on the console. *)
Theorem getTariffInfo_resolves (s : state W) (acc : account_record)
  (w1 w2 : W) (point : electricity_meter_point) (current : agreement)
  (productRes : product_record) (regionTariff : region_tariff)
  (details : payment_details) :
  fetch_account env octopusConfig (world s) = (inr acc, w1) ->
  mpanPoint_of octopusConfig acc = Some point ->
  currentAgreement (agreements point) = Some current ->
  get_product env (fst (parseTariffCode (tariff_code current))) w1
  = (inr productRes, w2) ->
  single_register_electricity_tariffs productRes
    !! ("_" ++ show_undefined (snd (parseTariffCode (tariff_code current))))
  = Some regionTariff ->
  direct_debit_monthly regionTariff = Some details ->
  getTariffInfo env octopusConfig s
  = (Return
       {| name := display_name productRes;
          unit_rate :=
            toFixed (standard_unit_rate_inc_vat details / 100)%float 4;
          standing_charge :=
            toFixed (standing_charge_inc_vat details / 100)%float 2 |},
     with_world s w2).
Proof.
  intros Hacc Hpoint Hcur Hprod Hentry Hdetails.
  unfold getTariffInfo. apply try_catch_Return.
  rewrite (getTariffInfo_try_to_product s acc w1 point current Hacc Hpoint Hcur).
  destruct (parseTariffCode (tariff_code current)) as [productCode regionLetter].
  cbn [fst snd] in Hprod, Hentry.
  rewrite (bind_Return _ _ _ _ _
             (await_inr (get_product env productCode) (with_world s w1)
                _ _ Hprod)).
  unfold get_property. rewrite Hentry. cbn [read_looked_up].
  rewrite (bind_Return (ret (direct_debit_monthly regionTariff)) _ _
             (direct_debit_monthly regionTariff) _ eq_refl).
  rewrite Hdetails. reflexivity.
Qed.

(** When the account request or the product request fails,
    [getTariffInfo] throws the very error of the request, after writing
    its message on the error console, and makes no further request (in
    particular no product request after a failed account request). *)
Theorem getTariffInfo_request_fails (s : state W) (e : js_error) (w : W) :
  request_fails env octopusConfig s e w ->
  getTariffInfo env octopusConfig s
  = (Throw e,
     with_line (with_world s w)
       (Stderr, "Error fetching tariff info: " ++ message e)).
Proof.
  intros [Hacc|acc w1 point current Hacc Hpoint Hcur Hprod];
    unfold getTariffInfo; apply rethrow.
  - unfold fetch_account in Hacc. unfold getTariffInfo_try.
    apply bind_Throw. apply await_inl. exact Hacc.
  - rewrite (getTariffInfo_try_to_product s acc w1 point current
               Hacc Hpoint Hcur).
    destruct (parseTariffCode (tariff_code current))
      as [productCode regionLetter].
    cbn [fst] in Hprod. apply bind_Throw.
    exact (await_inl (get_product env productCode) (with_world s w1)
             _ _ Hprod).
Qed.

(** When the region's tariff has no monthly direct debit branch,
    [getTariffInfo] fails on the read of the unit rate. *)
Theorem getTariffInfo_no_direct_debit (s : state W) (acc : account_record)
  (w1 w2 : W) (point : electricity_meter_point) (current : agreement)
  (productRes : product_record) (regionTariff : region_tariff) :
  fetch_account env octopusConfig (world s) = (inr acc, w1) ->
  mpanPoint_of octopusConfig acc = Some point ->
  currentAgreement (agreements point) = Some current ->
  get_product env (fst (parseTariffCode (tariff_code current))) w1
  = (inr productRes, w2) ->
  single_register_electricity_tariffs productRes
    !! ("_" ++ show_undefined (snd (parseTariffCode (tariff_code current))))
  = Some regionTariff ->
  direct_debit_monthly regionTariff = None ->
  fst (getTariffInfo env octopusConfig s)
  = Throw (undefined_read "standard_unit_rate_inc_vat").
Proof.
  intros Hacc Hpoint Hcur Hprod Hentry Hnone.
  unfold getTariffInfo.
  erewrite rethrow; [reflexivity|].
  rewrite (getTariffInfo_try_to_product s acc w1 point current Hacc Hpoint Hcur).
  destruct (parseTariffCode (tariff_code current)) as [productCode regionLetter].
  cbn [fst snd] in Hprod, Hentry.
  rewrite (bind_Return _ _ _ _ _
             (await_inr (get_product env productCode) (with_world s w1)
                _ _ Hprod)).
  unfold get_property. rewrite Hentry. cbn [read_looked_up].
  rewrite (bind_Return (ret (direct_debit_monthly regionTariff)) _ _
             (direct_debit_monthly regionTariff) _ eq_refl).
  rewrite Hnone. reflexivity.
Qed.

End TariffPaths.

(** ** The aggregations and the report, on failure *)

Lemma last_line_snoc (lines : list log_line) (line : log_line) :
  last_line (lines ++ [line]) = Some line.
Proof.
  unfold last_line. rewrite map_app. cbn [map]. apply last_last.
Qed.

Section Failures.
Context {host : JsHost}.
Context {W : Type} (env : World W) (octopusConfig : Config).

(** What a handler that logs and rethrows leaves behind. *)
Lemma rethrow_logged {A} (body : M W A) (label : string)
  (s s' : state W) (e : js_error) :
  try_catch body
    (fun error => bind (console_error label (message error))
                    (fun _ => throw error)) s
  = (Throw e, s') ->
  last_line (console s') = Some (Stderr, label ++ " " ++ message e).
Proof.
  unfold try_catch. destruct (body s) as [[a|e0] s0]; [discriminate|].
  cbn. intros [= -> <-]. cbn [console with_line]. apply last_line_snoc.
Qed.

(** When the consumption request of [getYesterdayUsage] fails, the
    function throws the error of the request after logging it, and
    never resolves the tariff: the world is left as the request left
    it.  The request is for the local day before the instant read from
    the clock, with 48 readings a page. *)
Theorem getYesterdayUsage_fetch_fails (s : state W) (now : Z) (w0 w1 : W)
  (e : js_error) :
  clock env (world s) = (now, w0) ->
  fetch_consumption env octopusConfig (yesterday_query now) w0 = (inl e, w1) ->
  getYesterdayUsage env octopusConfig s
  = (Throw e,
     with_line (with_world s w1)
       (Stderr, "Error fetching yesterday usage: " ++ message e)).
Proof.
  unfold fetch_consumption, yesterday_query. intros Hclock Hfetch.
  unfold getYesterdayUsage. run_monad. rewrite Hclock.
  cbn [world with_world]. rewrite Hfetch. reflexivity.
Qed.

(** The same for [getMonthlyUsage], whose request runs from the local
    day thirty days before the first reading of the clock to the local
    day of a second reading, with 1000 readings a page. *)
Theorem getMonthlyUsage_fetch_fails (s : state W) (now today : Z)
  (w0 w1 w2 : W) (e : js_error) :
  clock env (world s) = (now, w0) ->
  clock env w0 = (today, w1) ->
  fetch_consumption env octopusConfig (monthly_query now today) w1
  = (inl e, w2) ->
  getMonthlyUsage env octopusConfig s
  = (Throw e,
     with_line (with_world s w2)
       (Stderr, "Error fetching monthly usage: " ++ message e)).
Proof.
  unfold fetch_consumption, monthly_query. intros Hnow Htoday Hfetch.
  unfold getMonthlyUsage. run_monad. rewrite Hnow.
  cbn [world with_world]. rewrite Htoday.
  cbn [world with_world]. rewrite Hfetch. reflexivity.
Qed.

(** No failure is silent: whenever one of the five functions that
    rethrow ends with an error, the last line of the console is its
    label followed by the message of that error, on the error
    stream. *)
Theorem failures_are_logged (s s' : state W) (e : js_error) :
  (getKrakenToken env octopusConfig s = (Throw e, s') ->
   last_line (console s')
   = Some (Stderr, "❌ Error obtaining Kraken token: " ++ message e))
  /\ (forall tok,
         getMeterGuid env octopusConfig tok s = (Throw e, s') ->
         last_line (console s')
         = Some (Stderr, "❌ Error getting meter GUID: " ++ message e))
  /\ (getTariffInfo env octopusConfig s = (Throw e, s') ->
      last_line (console s')
      = Some (Stderr, "Error fetching tariff info: " ++ message e))
  /\ (getYesterdayUsage env octopusConfig s = (Throw e, s') ->
      last_line (console s')
      = Some (Stderr, "Error fetching yesterday usage: " ++ message e))
  /\ (getMonthlyUsage env octopusConfig s = (Throw e, s') ->
      last_line (console s')
      = Some (Stderr, "Error fetching monthly usage: " ++ message e)).
Proof.
  repeat split.
  - unfold getKrakenToken.
    rewrite (bind_Return (console_log _) _ s tt (with_line s _) eq_refl).
    apply rethrow_logged.
  - intros tok. unfold getMeterGuid.
    rewrite (bind_Return (console_log _) _ s tt (with_line s _) eq_refl).
    apply rethrow_logged.
  - apply rethrow_logged.
  - unfold getYesterdayUsage, bind at 1, moment.
    destruct (clock env (world s)) as [now w0]. apply rethrow_logged.
  - unfold getMonthlyUsage, bind at 1, moment.
    destruct (clock env (world s)) as [now w0]. apply rethrow_logged.
Qed.

(** The first character tells a report from the apology. *)
Lemma status_text_not_error_text (liveUsage : number)
  (yesterday monthly : consumption_window) (tariff : tariff_info)
  (stamp : string) :
  status_text liveUsage yesterday monthly tariff stamp <> error_text.
Proof.
  intros H.
  apply (f_equal (fun t => match t with
                           | String c _ => Some c
                           | EmptyString => None
                           end)) in H.
  discriminate H.
Qed.

Lemma generateStatusMessage_try_returns (s s' : state W) (text : string) :
  generateStatusMessage_try env octopusConfig s = (Return text, s') ->
  exists liveUsage yesterday monthly tariff stamp,
    text = status_text liveUsage yesterday monthly tariff stamp.
Proof.
  unfold generateStatusMessage_try, formatTimestamp, bind, moment, ret.
  destruct (getLiveUsage _ _ _) as [[live|?] s1]; [|discriminate].
  destruct (getYesterdayUsage _ _ _) as [[y|?] s2]; [|discriminate].
  destruct (getMonthlyUsage _ _ _) as [[m|?] s3]; [|discriminate].
  destruct (getTariffInfo _ _ _) as [[t|?] s4]; [|discriminate].
  destruct (clock _ _) as [now w5]. intros [= <- _]. eauto 6.
Qed.

(** The user is shown either the apology or a complete report, never
    anything else (no raw error, no partial report); and the apology is
    shown exactly when an error left the [try] block. *)
Theorem generateStatusMessage_text (s : state W) :
  (exists e s0,
      generateStatusMessage_try env octopusConfig s = (Throw e, s0)
      /\ fst (generateStatusMessage env octopusConfig s) = Return error_text)
  \/ (exists liveUsage yesterday monthly tariff stamp s',
         generateStatusMessage_try env octopusConfig s
         = (Return (status_text liveUsage yesterday monthly tariff stamp), s')
         /\ generateStatusMessage env octopusConfig s
            = (Return (status_text liveUsage yesterday monthly tariff stamp),
               s')
         /\ status_text liveUsage yesterday monthly tariff stamp
            <> error_text).
Proof.
  unfold generateStatusMessage, try_catch.
  destruct (generateStatusMessage_try env octopusConfig s)
    as [[text|e] s0] eqn:Htry.
  - right.
    destruct (generateStatusMessage_try_returns _ _ _ Htry)
      as (live & y & m & t & stamp & ->).
    exists live, y, m, t, stamp, s0.
    split; [reflexivity|]. split; [reflexivity|].
    apply status_text_not_error_text.
  - left. exists e, s0. split; reflexivity.
Qed.

(** A failed live usage does not cost the report: when the [try] block
    of [getLiveUsage] throws and the three other steps return, the
    report is produced and shows 0 watts. *)
Theorem report_survives_live_usage_failure (s s0 s2 s3 s4 : state W)
  (e : js_error) (yesterday monthly : consumption_window)
  (tariff : tariff_info) (now : Z) (w5 : W) :
  getLiveUsage_try env octopusConfig
    (with_line s (Stdout, "📊 Fetching live usage data..."))
  = (Throw e, s0) ->
  getYesterdayUsage env octopusConfig
    (with_line s0 (Stderr, "❌ Error fetching live usage: " ++ message e))
  = (Return yesterday, s2) ->
  getMonthlyUsage env octopusConfig s2 = (Return monthly, s3) ->
  getTariffInfo env octopusConfig s3 = (Return tariff, s4) ->
  clock env (world s4) = (now, w5) ->
  exists rest,
    generateStatusMessage env octopusConfig s
    = (Return
         ("🔌 *Octopus Energy Status*" ++ newline ++ newline
          ++ "*Current Usage:* 0W" ++ rest),
       with_world s4 w5).
Proof.
  intros Hlive Hy Hm Ht Hclock.
  exists (newline ++ newline
          ++ "*Yesterday's Usage:*" ++ newline
          ++ formatUsageData (usage yesterday) (cost yesterday)
          ++ newline ++ newline
          ++ "*Last 30 Days:*" ++ newline
          ++ formatUsageData (usage monthly) (cost monthly)
          ++ newline ++ newline
          ++ "*Tariff Information:*" ++ newline
          ++ "Name: " ++ name tariff ++ newline
          ++ "Unit Rate: £" ++ unit_rate tariff ++ "/kWh" ++ newline
          ++ "Standing Charge: £" ++ standing_charge tariff ++ "/day"
          ++ newline ++ newline
          ++ "Last Updated: " ++ format_utc now).
  unfold generateStatusMessage. apply try_catch_Return.
  unfold generateStatusMessage_try.
  assert (Hzero : getLiveUsage env octopusConfig s
                  = (Return PrimFloat.zero,
                     with_line s0
                       (Stderr,
                        "❌ Error fetching live usage: " ++ message e))).
  { unfold getLiveUsage.
    rewrite (bind_Return (console_log _) _ s tt (with_line s _) eq_refl).
    rewrite (try_catch_Throw _ _ _ _ _ Hlive). reflexivity. }
  rewrite (bind_Return _ _ _ _ _ Hzero), (bind_Return _ _ _ _ _ Hy).
  rewrite (bind_Return _ _ _ _ _ Hm), (bind_Return _ _ _ _ _ Ht).
  unfold formatTimestamp, bind, moment. rewrite Hclock.
  unfold ret, status_text.
  change (toFixed PrimFloat.zero 0) with "0". reflexivity.
Qed.

End Failures.

(** ** The command handlers *)

Lemma prefix_spec (literal s : string) :
  String.prefix literal s = true <-> exists after, s = literal ++ after.
Proof.
  revert s. induction literal as [|c literal IH]; intros s.
  - split; [intros _; exists s; reflexivity|].
    intros _. destruct s; reflexivity.
  - destruct s as [|d s]; cbn [String.prefix].
    + split; [discriminate|]. intros (after & H). discriminate H.
    + destruct (Ascii.ascii_dec c d) as [->|Hne].
      * rewrite IH. split.
        -- intros (after & ->). exists after. reflexivity.
        -- intros (after & H). rewrite append_String in H.
           injection H as ->. exists after. reflexivity.
      * split; [discriminate|]. intros (after & H).
        rewrite append_String in H. injection H as <- _. congruence.
Qed.

(** The pattern of one literal text is found exactly in the strings
    that contain the text. *)
Lemma includes_spec (literal s : string) :
  includes literal s = true
  <-> exists before after, s = before ++ literal ++ after.
Proof.
  split.
  - induction s as [|c s IH]; cbn [includes]; intros H;
      apply orb_true_iff in H as [H|H].
    + apply prefix_spec in H as (after & ->).
      exists EmptyString, after. reflexivity.
    + discriminate.
    + apply prefix_spec in H as (after & ->).
      exists EmptyString, after. reflexivity.
    + destruct (IH H) as (before & after & ->).
      exists (String c before), after. reflexivity.
  - intros (before & after & ->).
    induction before as [|c before IH].
    + rewrite append_empty.
      assert (Hp : String.prefix literal (literal ++ after) = true)
        by (apply prefix_spec; eauto).
      destruct (literal ++ after); cbn [includes]; rewrite Hp; reflexivity.
    + rewrite append_String. cbn [includes]. rewrite IH.
      apply orb_true_r.
Qed.

Section Handlers.
Context {host : JsHost}.
Context {W : Type} (env : World W) (octopusConfig : Config).

Lemma generateStatusMessage_total (s : state W) :
  exists text s', generateStatusMessage env octopusConfig s = (Return text, s').
Proof.
  unfold generateStatusMessage, try_catch.
  destruct (generateStatusMessage_try env octopusConfig s) as [[text|e] s'];
    cbn; eauto.
Qed.

(** Whatever the provider does, the [/start] handler completes and
    issues exactly one [sendMessage]: to the chat of the command, with
    the text of [generateStatusMessage] (the report or the apology),
    in Markdown, with the refresh button attached. *)
Theorem on_start_sends (msg : telegram_message) (b : bot_state W) :
  exists text s,
    generateStatusMessage env octopusConfig
      (with_line (process b)
         (Stdout,
          "Received /start command from chat "
          ++ show_integer (chat_id (chat msg))))
    = (Return text, s)
    /\ on_start env octopusConfig msg b
       = (Return tt,
          {| process := s;
             outbox :=
               outbox b
                 ++ [ sendMessage (chat_id (chat msg)) text
                        {| parse_mode := "Markdown";
                           reply_markup :=
                             {| inline_keyboard :=
                                  [ [ {| button_text := "🔄 Refresh";
                                         callback_data := "refresh" |} ] ]
                             |} |} ] |}).
Proof.
  unfold on_start.
  destruct (generateStatusMessage_total
              (with_line (process b)
                 (Stdout,
                  "Received /start command from chat "
                  ++ show_integer (chat_id (chat msg)))))
    as (text & s & H).
  exists text, s. rewrite H. split; reflexivity.
Qed.

(** The [/start] handler runs for the messages whose text contains
    "/start" anywhere (also inside a longer word or sentence), and for
    no other message: without text, or with a text that does not
    contain it, nothing happens. *)
Theorem on_text_matches (msg : telegram_message) (b : bot_state W) :
  (forall before after,
      message_text msg = Some (before ++ "/start" ++ after) ->
      on_text env octopusConfig msg b = on_start env octopusConfig msg b)
  /\ ((forall before after,
          message_text msg <> Some (before ++ "/start" ++ after)) ->
      on_text env octopusConfig msg b = (Return tt, b)).
Proof.
  unfold on_text. split.
  - intros before after ->.
    replace (includes "/start" (before ++ "/start" ++ after)) with true;
      [reflexivity|].
    symmetry. apply includes_spec. eauto.
  - intros Hnone. destruct (message_text msg) as [text|]; [|reflexivity].
    destruct (includes "/start" text) eqn:E; [|reflexivity].
    apply includes_spec in E as (before & after & ->).
    destruct (Hnone before after). reflexivity.
Qed.

(** The callback handler acts on one button only.  For a query that
    carries its message: with the data "refresh" it completes and
    issues exactly one [editMessageText], aimed at the chat and the
    message the button belongs to, in Markdown, with the refresh button
    attached again; with any other data, or none, it changes nothing.
    For a query without message it fails on the read of the chat,
    whatever the data. *)
Theorem on_callback_query_effect (q : callback_query) (b : bot_state W) :
  match query_message q with
  | Some origin =>
      (query_data q = Some "refresh" ->
       exists text s,
         on_callback_query env octopusConfig q b
         = (Return tt,
            {| process := s;
               outbox :=
                 outbox b
                   ++ [ editMessageText text
                          {| edit_chat_id := chat_id (chat origin);
                             edit_message_id := message_id origin;
                             edit_parse_mode := "Markdown";
                             edit_reply_markup :=
                               {| inline_keyboard :=
                                    [ [ {| button_text := "🔄 Refresh";
                                           callback_data := "refresh" |} ] ]
                               |} |} ] |}))
      /\ (query_data q <> Some "refresh" ->
          on_callback_query env octopusConfig q b = (Return tt, b))
  | None =>
      on_callback_query env octopusConfig q b
      = (Throw (undefined_read "chat"), b)
  end.
Proof.
  unfold on_callback_query, is_refresh.
  destruct (query_message q) as [origin|]; [|reflexivity]. split.
  - intros ->. cbn [String.eqb Ascii.eqb Bool.eqb].
    destruct (generateStatusMessage_total
                (with_line (process b)
                   (Stdout,
                    "Received refresh request from chat "
                    ++ show_integer (chat_id (chat origin)))))
      as (text & s & H).
    exists text, s. rewrite H. reflexivity.
  - intros Hother. destruct (query_data q) as [d|]; [|reflexivity].
    destruct (String.eqb d "refresh") eqn:E; [|reflexivity].
    apply String.eqb_eq in E. congruence.
Qed.

(** [getLiveUsageGraphQL] returns the live usage exactly when the
    provider answers with data that hold a consumption record, and then
    returns its [liveUsage] field as it is, without a line on the
    console; in every other case it throws (it has no fallback to 0). *)
Theorem getLiveUsageGraphQL_returns
  (post_electricityConsumption :
     string -> string -> authorization -> W ->
     axios_result (graphql consumption_data) * W)
  (s s' : state W) (v : jsval) :
  getLiveUsageGraphQL octopusConfig post_electricityConsumption s
  = (Return v, s')
  <-> exists response w data reading,
      post_electricityConsumption (mpan octopusConfig)
        (serialNumber octopusConfig) (Basic (apiKey octopusConfig ++ ":"))
        (world s)
      = (inr response, w)
      /\ gql_data response = Some data
      /\ electricityConsumption data = Some reading
      /\ liveUsage reading = v
      /\ s' = with_world s w.
Proof.
  unfold getLiveUsageGraphQL, basic_auth. run_monad.
  destruct (post_electricityConsumption _ _ _ _) as [[e|response] w]; cbn.
  - split; [discriminate|]. intros (? & ? & ? & ? & [=] & _).
  - destruct (gql_data response) as [data|] eqn:Hdata; cbn.
    + destruct (electricityConsumption data) as [reading|] eqn:Hreading; cbn.
      * split.
        -- intros [= <- <-]. exists response, w, data, reading.
           repeat split; auto.
        -- intros (r & w' & d & o & [= <- <-] & Hd & Ho & <- & ->).
           rewrite Hdata in Hd. injection Hd as <-.
           rewrite Hreading in Ho. injection Ho as <-. reflexivity.
      * split; [discriminate|].
        intros (r & w' & d & o & [= <- <-] & Hd & Ho & _).
        rewrite Hdata in Hd. injection Hd as <-. congruence.
    + split; [discriminate|].
      intros (r & w' & d & o & [= <- <-] & Hd & _). congruence.
Qed.

End Handlers.

(** ** The theorems at work on the example data *)

Import Reference Examples.

Ltac run := vm_compute; reflexivity.

(** Two numbers are told apart by their binary64 representations. *)
Lemma different_numbers (x y : number) : Prim2SF x <> Prim2SF y -> x <> y.
Proof. intros H ->. apply H. reflexivity. Qed.

(** Of the three dated agreements the second is current: it ends later
    than the first and is met before the third, which ends with it. *)
Lemma currentAgreement_latest_first_witness :
  exists before r after t,
    dated_agreements = (before ++ r :: after)%list
    /\ currentAgreement dated_agreements = Some r
    /\ valid_time r = Some t
    /\ Forall (ends_before t) before
    /\ Forall (ends_by t) after.
Proof.
  apply (currentAgreement_latest_first dated_agreements).
  - discriminate.
  - repeat constructor; vm_compute; discriminate.
Defined.

(** C1 fails on a list whose first agreement has no valid date: that
    agreement is kept, although the other one is the only agreement
    with a [valid_to], for no date compares as later than an invalid
    one. *)
Lemma undated_agreement_is_kept :
  undated_first <> []
  /\ currentAgreement undated_first
     = Some (agreed "E-1R-VAR-21-09-29-A" JUndefined)
  /\ valid_time (agreed "E-1R-VAR-21-09-29-A" JUndefined) = None
  /\ In (agreed "E-1R-VAR-22-11-01-A" (JStr "2024-04-01T00:00:00Z"))
       undated_first
  /\ valid_time (agreed "E-1R-VAR-22-11-01-A" (JStr "2024-04-01T00:00:00Z"))
     = Some 1711929600000
  /\ ~ (exists before r after t,
          undated_first = (before ++ r :: after)%list
          /\ currentAgreement undated_first = Some r
          /\ valid_time r = Some t
          /\ Forall (ends_before t) before
          /\ Forall (ends_by t) after).
Proof.
  split; [discriminate|]. split; [run|]. split; [run|].
  split; [right; left; reflexivity|]. split; [run|].
  intros (before & r & after & t & _ & Hcur & Ht & _).
  vm_compute in Hcur. injection Hcur as <-.
  vm_compute in Ht. discriminate Ht.
Qed.

Example currentAgreement_dated :
  currentAgreement dated_agreements
  = Some (agreed "E-1R-VAR-22-11-01-A" (JStr "2024-04-01T00:00:00Z")).
Proof. run. Qed.

(** With a closed agreement and the open-ended one, the closed one is
    current. *)
Lemma currentAgreement_not_open_ended_witness :
  valid_time (agreed "E-1R-VAR-22-11-01-A" JNull) = Some 0
  /\ exists r,
      currentAgreement open_ended_agreements = Some r /\ valid_to r <> JNull.
Proof.
  apply (currentAgreement_not_open_ended open_ended_agreements
           (agreed "E-1R-VAR-22-11-01-A" JNull)
           (agreed "E-1R-VAR-21-09-29-A" (JStr "2023-04-01T00:00:00Z"))
           1680307200000).
  - right. left. reflexivity.
  - reflexivity.
  - left. reflexivity.
  - run.
  - lia.
Defined.

Example currentAgreement_open_ended :
  currentAgreement open_ended_agreements
  = Some (agreed "E-1R-VAR-21-09-29-A" (JStr "2023-04-01T00:00:00Z")).
Proof. run. Qed.

(** No agreement on the meter point: the read of [tariff_code] on
    [null] fails. *)
Lemma getTariffInfo_not_found_witness :
  exists s',
    getTariffInfo (scripted no_agreements) config start
    = (Throw (TypeError
                "Cannot read properties of null (reading 'tariff_code')"),
       s').
Proof.
  apply (getTariffInfo_not_found (scripted no_agreements) config start
           NoCurrentAgreement).
  eapply missing_agreement; run.
Defined.

Example getTariffInfo_other_mpan :
  record_missing (scripted other_mpan) config start NoMatchingProperty
  /\ fst (getTariffInfo (scripted other_mpan) config start)
     = Throw (Error "MPAN 1200012345678 not found in any property").
Proof.
  split; [|run].
  eapply missing_property; [run|].
  repeat constructor. vm_compute. discriminate.
Qed.

Example getTariffInfo_other_region :
  record_missing (scripted other_region) config start (NoRegionEntry "_B")
  /\ fst (getTariffInfo (scripted other_region) config start)
     = Throw (TypeError
                ("Cannot read properties of undefined "
                 ++ "(reading 'direct_debit_monthly')")).
Proof.
  split; [|run].
  eapply missing_region with (current := agreed "E-1R-VAR-22-11-01-B" JNull);
    [run|run|run|reflexivity|run].
Qed.

(** C2 fails for a region whose key names a member of
    [Object.prototype]: the table has no entry for the region, yet the
    lookup finds the inherited member and the run goes on to the read
    of the rate.  The error is not the one of a missing entry, but the
    very error of an entry that is found and lacks the monthly direct
    debit branch: it does not tell that a record was not found. *)
Lemma inherited_region_is_read_further :
  parseTariffCode "E-1R-VAR-22-11-01-_proto__"
  = ("VAR-22-11-01", Some "_proto__")
  /\ record_missing (scripted inherited_region) config start
       (NoRegionEntry "__proto__")
  /\ fst (getTariffInfo (scripted inherited_region) config start)
     = Throw (TypeError
                ("Cannot read properties of undefined "
                 ++ "(reading 'standard_unit_rate_inc_vat')"))
  /\ fst (getTariffInfo (scripted inherited_region) config start)
     <> Throw (undefined_read "direct_debit_monthly")
  /\ fst (getTariffInfo (scripted inherited_region) config start)
     = fst (getTariffInfo (scripted no_direct_debit) config start).
Proof.
  split; [reflexivity|]. split.
  - eapply missing_region
      with (current := agreed "E-1R-VAR-22-11-01-_proto__" JNull);
      [run|run|run|reflexivity|run].
  - split; [run|]. split; [vm_compute; discriminate|run].
Qed.

(** The provider cannot be reached: live usage is 0 and the fault is on
    the error console. *)
Lemma getLiveUsage_never_fails_witness :
  getLiveUsage (scripted offline) config start
  = (Return PrimFloat.zero,
     {| world := tt;
        console :=
          [ (Stdout, "📊 Fetching live usage data...");
            (Stdout, "🔑 Obtaining Kraken token...");
            (Stderr, "❌ Error obtaining Kraken token: Network Error");
            (Stderr, "❌ Error fetching live usage: Network Error") ] |}).
Proof.
  rewrite (proj2 (getLiveUsage_never_fails (scripted offline) config start)
             network_fault
             {| world := tt;
                console :=
                  [ (Stdout, "📊 Fetching live usage data...");
                    (Stdout, "🔑 Obtaining Kraken token...");
                    (Stderr,
                     "❌ Error obtaining Kraken token: Network Error") ] |}).
  - reflexivity.
  - run.
Defined.

(** A refused key, a meter without device and a device without
    telemetry all end in 0 as well. *)
Example getLiveUsage_other_failures :
  fst (getLiveUsage (scripted key_refused) config start)
  = Return PrimFloat.zero
  /\ fst (getLiveUsage (scripted no_device) config start)
     = Return PrimFloat.zero
  /\ fst (getLiveUsage (scripted no_telemetry) config start)
     = Return PrimFloat.zero
  /\ List.last (console (snd (getLiveUsage (scripted key_refused) config start)))
       (Stdout, EmptyString)
     = (Stderr,
        "❌ Error fetching live usage: "
        ++ "Cannot read properties of null (reading 'token')")
  /\ List.last (console (snd (getLiveUsage (scripted no_device) config start)))
       (Stdout, EmptyString)
     = (Stderr, "❌ Error fetching live usage: No smart devices found")
  /\ List.last
       (console (snd (getLiveUsage (scripted no_telemetry) config start)))
       (Stdout, EmptyString)
     = (Stderr, "❌ Error fetching live usage: No telemetry data available").
Proof. repeat split; run. Qed.

(** The account endpoint refuses the request: yesterday's aggregation
    fails and the report is the apology. *)
Lemma generateStatusMessage_never_throws_witness :
  fst (generateStatusMessage (scripted account_refused) config start)
  = Return "❌ Error fetching data. Please try again later.".
Proof.
  erewrite (proj2 (generateStatusMessage_never_throws
                     (scripted account_refused) config start)).
  - reflexivity.
  - eapply yesterday_fails; run.
Defined.

Example generateStatusMessage_month_unavailable :
  (exists e s_end,
      aggregation_fails (scripted month_unavailable) config start e s_end)
  /\ fst (generateStatusMessage (scripted month_unavailable) config start)
     = Return "❌ Error fetching data. Please try again later.".
Proof.
  split; [|run].
  eexists. eexists. eapply monthly_fails; run.
Qed.

Example generateStatusMessage_account_expiring :
  (exists e s_end,
      aggregation_fails account_expiring config
        {| world := 0%nat; console := [] |} e s_end)
  /\ fst (generateStatusMessage account_expiring config
            {| world := 0%nat; console := [] |})
     = Return "❌ Error fetching data. Please try again later.".
Proof.
  split; [|run].
  eexists. eexists. eapply tariff_fails.
  - run.
  - run.
  - run.
  - run.
Qed.

(** C6 fails for a reading without a demand field: the live usage is
    NaN, not 0, and the report shows it. *)
Lemma missing_demand_is_NaN :
  demand {| readAt := "2025-11-03T02:30:00+00:00"; demand := JUndefined;
            telemetry_consumption := JNull |} = JUndefined
  /\ fst (getLiveUsage (scripted missing_demand) config start) = Return NaN
  /\ NaN <> PrimFloat.zero
  /\ exists before after,
      fst (generateStatusMessage (scripted missing_demand) config start)
      = Return (before ++ "*Current Usage:* NaNW" ++ after).
Proof.
  split; [reflexivity|]. split; [run|]. split.
  - apply different_numbers. vm_compute. discriminate.
  - exists ("🔌 *Octopus Energy Status*" ++ newline ++ newline).
    eexists. run.
Qed.

Lemma null_demand_is_zero_witness :
  getLiveUsage (scripted null_demand) config start
  = (Return PrimFloat.zero,
     with_line
       (with_world
          {| world := tt;
             console :=
               [ (Stdout, "📊 Fetching live usage data...");
                 (Stdout, "🔑 Obtaining Kraken token...");
                 (Stdout, "✅ Kraken token obtained successfully");
                 (Stdout, "🔍 Looking up meter GUID...");
                 (Stdout, "✅ Meter GUID found successfully") ] |}
          tt)
       (Stdout, "⚠️ No demand data available, returning 0"))
  /\ toFixed PrimFloat.zero 0 = "0".
Proof.
  eapply (null_demand_is_zero (scripted null_demand) config start); run.
Defined.


Example ten_kWh_at_a_quarter :
  fst (getYesterdayUsage (scripted round_numbers) config start)
  = Return {| usage := 10%float; cost := 2.5%float |}
  /\ fst (getTariffInfo (scripted round_numbers) config start)
     = Return {| name := "Flexible Octopus"; unit_rate := "0.2500";
                 standing_charge := "0.49" |}
  /\ formatUsageData 10%float 2.5%float = "Usage: 10.00 kWh" ++ newline ++ "Cost: £2.50".
Proof. repeat split; run. Qed.


(** C8 fails for 0.1, 0.2 and 0.3 kWh: summed in this order they give
    0.6000000000000001, in the reverse order 0.6. *)
Lemma totalUsage_depends_on_order :
  Permutation tenths tenths_reversed
  /\ totalUsage tenths <> totalUsage tenths_reversed
  /\ PrimFloat.eqb (totalUsage tenths) (totalUsage tenths_reversed) = false
  /\ Number_toString (totalUsage tenths) = "0.6000000000000001"
  /\ Number_toString (totalUsage tenths_reversed) = "0.6".
Proof.
  split; [|split; [|split; [|split]; run]].
  - unfold tenths, tenths_reversed. cbn [results readings_of map].
    etransitivity; [apply perm_skip, perm_swap|].
    etransitivity; [apply perm_swap|].
    apply perm_skip, perm_swap.
  - apply different_numbers. vm_compute. discriminate.
Qed.

Lemma totalUsage_order_witness :
  PrimFloat.eqb (totalUsage quarters) (totalUsage quarters_reordered) = true.
Proof.
  apply (proj2 totalUsage_order quarters quarters_reordered).
  - unfold quarters, quarters_reordered. cbn [results readings_of map].
    etransitivity; [apply perm_skip, perm_swap|]. apply perm_swap.
  - run.
  - run.
Defined.

(** C9 fails when the demand is a text that is no number: the report
    is a successful one, with all its sections, and its live usage is
    written NaN, which is no whole number of watts. *)
Lemma report_shows_NaN_watts :
  fst (getLiveUsage (scripted unreadable_demand) config start) = Return NaN
  /\ fixed_point_range NaN = false
  /\ fst (generateStatusMessage (scripted unreadable_demand) config start)
     = Return
         (status_text NaN
            {| usage := 8.2; cost := 8.2 * 0.2712 |}
            {| usage := 210.5; cost := 210.5 * 0.2712 |}
            {| name := "Flexible Octopus"; unit_rate := "0.2712";
               standing_charge := "0.49" |}
            "2025-11-03 02:30:00 UTC")%float
  /\ (exists before after,
         fst (generateStatusMessage (scripted unreadable_demand) config start)
         = Return (before ++ "*Current Usage:* NaNW" ++ after))
  /\ toFixed NaN 0 = "NaN"
  /\ whole_number "NaN" = false.
Proof.
  split; [run|]. split; [reflexivity|]. split; [run|]. split.
  - exists ("🔌 *Octopus Energy Status*" ++ newline ++ newline).
    eexists. run.
  - split; reflexivity.
Qed.

(** The report of the example scenario. *)
Lemma generateStatusMessage_sections_witness :
  generateStatusMessage (scripted scenario) config start
  = (Return
       ("🔌 *Octopus Energy Status*" ++ newline ++ newline
        ++ "*Current Usage:* " ++ "350" ++ "W" ++ newline ++ newline
        ++ "*Yesterday's Usage:*" ++ newline
        ++ "Usage: " ++ "8.20" ++ " kWh" ++ newline
        ++ "Cost: £" ++ "2.22" ++ newline ++ newline
        ++ "*Last 30 Days:*" ++ newline
        ++ "Usage: " ++ "210.50" ++ " kWh" ++ newline
        ++ "Cost: £" ++ "57.09" ++ newline ++ newline
        ++ "*Tariff Information:*" ++ newline
        ++ "Name: " ++ "Flexible Octopus" ++ newline
        ++ "Unit Rate: £" ++ "0.2712" ++ "/kWh" ++ newline
        ++ "Standing Charge: £" ++ "0.49" ++ "/day" ++ newline ++ newline
        ++ "Last Updated: " ++ "2025-11-03" ++ " " ++ "02:30:00" ++ " UTC"),
     {| world := tt;
        console :=
          [ (Stdout, "📊 Fetching live usage data...");
            (Stdout, "🔑 Obtaining Kraken token...");
            (Stdout, "✅ Kraken token obtained successfully");
            (Stdout, "🔍 Looking up meter GUID...");
            (Stdout, "✅ Meter GUID found successfully");
            (Stdout, "✅ Live usage data received: 350W") ] |})
  /\ whole_number (toFixed 350%float 0) = true
  /\ decimals 2 (toFixed 8.2%float 2) = true.
Proof.
  edestruct (generateStatusMessage_sections (scripted scenario) config start)
    as (Htext & Hwatts & Hkwh); [run..|].
  split; [rewrite Htext; run|]. split.
  - apply Hwatts. run.
  - apply (List.Forall_inv Hkwh). run.
Defined.

(** ** The further properties at work on the example data *)

Lemma parseTariffCode_segments_witness :
  parseTariffCode "E-1R-AGILE-FLEX-22-11-25-C"
  = ("AGILE-FLEX-22-11-25", Some "C").
Proof.
  exact (parseTariffCode_segments "E" "1R" "AGILE-FLEX-22-11-25" "C"
           eq_refl eq_refl eq_refl).
Defined.

Lemma parseTariffCode_short_witness :
  fst (parseTariffCode "E-1R-A") = EmptyString.
Proof. apply parseTariffCode_short. cbn. lia. Defined.

Lemma currentAgreement_invalid_first_witness :
  currentAgreement undated_first
  = Some (agreed "E-1R-VAR-21-09-29-A" JUndefined).
Proof.
  apply (currentAgreement_invalid_first
           (agreed "E-1R-VAR-21-09-29-A" JUndefined)).
  reflexivity.
Defined.

Lemma currentAgreement_invalid_only_first_witness :
  currentAgreement undated_first
  = Some (agreed "E-1R-VAR-21-09-29-A" JUndefined)
  /\ valid_time (agreed "E-1R-VAR-21-09-29-A" JUndefined) = None
  /\ agreed "E-1R-VAR-21-09-29-A" JUndefined
     = agreed "E-1R-VAR-21-09-29-A" JUndefined.
Proof.
  split; [run|]. split; [reflexivity|].
  apply (currentAgreement_invalid_only_first
           (agreed "E-1R-VAR-21-09-29-A" JUndefined)
           (agreed "E-1R-VAR-21-09-29-A" JUndefined)
           [agreed "E-1R-VAR-22-11-01-A" (JStr "2024-04-01T00:00:00Z")]).
  - run.
  - reflexivity.
Defined.

Lemma currentAgreement_app_stable_witness :
  currentAgreement (dated_agreements ++ [expired])
  = Some (agreed "E-1R-VAR-22-11-01-A" (JStr "2024-04-01T00:00:00Z")).
Proof.
  apply (currentAgreement_app_stable dated_agreements [expired] _
           1711929600000).
  - run.
  - run.
  - constructor; [|constructor].
    intros u Hu. vm_compute in Hu. injection Hu as <-. lia.
Defined.

Lemma getKrakenToken_returns_witness :
  getKrakenToken (scripted scenario) config start
  = (Return "jwt-1",
     {| world := tt;
        console :=
          [ (Stdout, "🔑 Obtaining Kraken token...");
            (Stdout, "✅ Kraken token obtained successfully") ] |}).
Proof.
  apply (proj2 (getKrakenToken_returns (scripted scenario) config start
                  _ "jwt-1")).
  eexists. eexists. eexists. eexists.
  split; [reflexivity|]. split; [reflexivity|]. split; [reflexivity|].
  split; reflexivity.
Defined.

(** The meter without device: the third list is the missing one. *)
Lemma getMeterGuid_chain_broken_witness :
  getMeterGuid (scripted no_device) config "jwt-1" start
  = (Throw (Error "No smart devices found"),
     {| world := tt;
        console :=
          [ (Stdout, "🔍 Looking up meter GUID...");
            (Stderr, "❌ Error getting meter GUID: No smart devices found") ]
     |}).
Proof.
  eapply (getMeterGuid_chain_broken (scripted no_device) config start "jwt-1"
            _ tt _ _ NoSmartDevices).
  - reflexivity.
  - reflexivity.
  - reflexivity.
  - eapply broken_devices.
    + reflexivity.
    + reflexivity.
    + reflexivity.
    + right. reflexivity.
Defined.

Lemma getMeterGuid_first_device_witness :
  getMeterGuid (scripted (with_devices several_devices scenario)) config
    "jwt-1" start
  = (Return "00-11-22",
     {| world := tt;
        console :=
          [ (Stdout, "🔍 Looking up meter GUID...");
            (Stdout, "✅ Meter GUID found successfully") ] |}).
Proof.
  eapply (getMeterGuid_first_device
            (scripted (with_devices several_devices scenario)) config start
            "jwt-1" _ tt _ _ _ _ _ _ _ {| deviceId := "00-11-22" |}).
  - reflexivity.
  - reflexivity.
  - reflexivity.
  - reflexivity.
  - reflexivity.
  - reflexivity.
  - reflexivity.
Defined.

Lemma getLiveUsage_token_failure_witness :
  getLiveUsage (scripted offline) config start
  = (Return PrimFloat.zero,
     {| world := tt;
        console :=
          [ (Stdout, "📊 Fetching live usage data...");
            (Stdout, "🔑 Obtaining Kraken token...");
            (Stderr, "❌ Error obtaining Kraken token: Network Error");
            (Stderr, "❌ Error fetching live usage: Network Error") ] |}).
Proof.
  apply (getLiveUsage_token_failure (scripted offline) config start
           network_fault tt).
  reflexivity.
Defined.

(** The demand "350" of the scenario is read as the number 350. *)
Lemma getLiveUsage_demand_witness :
  fst (getLiveUsage (scripted scenario) config start) = Return 350%float.
Proof.
  erewrite (getLiveUsage_demand (scripted scenario) config start); cycle 1.
  - run.
  - run.
  - run.
  - reflexivity.
  - reflexivity.
  - discriminate.
  - run.
Defined.

Lemma getTariffInfo_resolves_witness :
  getTariffInfo (scripted scenario) config start
  = (Return {| name := "Flexible Octopus"; unit_rate := "0.2712";
               standing_charge := "0.49" |},
     start).
Proof.
  erewrite (getTariffInfo_resolves (scripted scenario) config start);
    cycle 1.
  - reflexivity.
  - reflexivity.
  - run.
  - reflexivity.
  - reflexivity.
  - reflexivity.
  - run.
Defined.

Lemma getTariffInfo_request_fails_witness :
  getTariffInfo (scripted account_refused) config start
  = (Throw (Error "Request failed with status code 401"),
     {| world := tt;
        console :=
          [ (Stderr,
             "Error fetching tariff info: Request failed with status code 401")
          ] |}).
Proof.
  apply (getTariffInfo_request_fails (scripted account_refused) config start
           (Error "Request failed with status code 401") tt).
  apply account_request_fails. reflexivity.
Defined.

Lemma getTariffInfo_no_direct_debit_witness :
  fst (getTariffInfo (scripted no_direct_debit) config start)
  = Throw (TypeError
             ("Cannot read properties of undefined "
              ++ "(reading 'standard_unit_rate_inc_vat')")).
Proof.
  eapply (getTariffInfo_no_direct_debit (scripted no_direct_debit) config
            start).
  - reflexivity.
  - reflexivity.
  - run.
  - reflexivity.
  - reflexivity.
  - reflexivity.
Defined.

Lemma getYesterdayUsage_fetch_fails_witness :
  getYesterdayUsage (scripted consumption_unavailable) config start
  = (Throw (Error "Request failed with status code 503"),
     {| world := tt;
        console :=
          [ (Stderr,
             "Error fetching yesterday usage: "
             ++ "Request failed with status code 503") ] |}).
Proof.
  apply (getYesterdayUsage_fetch_fails (scripted consumption_unavailable)
           config start 1762137000123 tt tt
           (Error "Request failed with status code 503")).
  - reflexivity.
  - reflexivity.
Defined.

Lemma getMonthlyUsage_fetch_fails_witness :
  getMonthlyUsage (scripted month_unavailable) config start
  = (Throw (Error "Request failed with status code 503"),
     {| world := tt;
        console :=
          [ (Stderr,
             "Error fetching monthly usage: "
             ++ "Request failed with status code 503") ] |}).
Proof.
  apply (getMonthlyUsage_fetch_fails (scripted month_unavailable) config
           start 1762137000123 1762137000123 tt tt tt
           (Error "Request failed with status code 503")).
  - reflexivity.
  - reflexivity.
  - reflexivity.
Defined.

Example yesterday_query_of_scenario :
  yesterday_query 1762137000123
  = {| period_from := "2025-11-02T00:00:00Z";
       period_to := "2025-11-02T23:59:59Z"; page_size := 48 |}
  /\ monthly_query 1762137000123 1762137000123
     = {| period_from := "2025-10-04T00:00:00Z";
          period_to := "2025-11-03T23:59:59Z"; page_size := 1000 |}.
Proof. split; run. Qed.

(** The tariff request of yesterday's aggregation is refused: three
    functions have logged the error, the last one last. *)
Lemma failures_are_logged_witness :
  last_line
    (console (snd (getYesterdayUsage (scripted account_refused) config start)))
  = Some (Stderr,
          "Error fetching yesterday usage: "
          ++ "Request failed with status code 401").
Proof.
  apply (proj1 (proj2 (proj2 (proj2
           (failures_are_logged (scripted account_refused) config start
              (snd (getYesterdayUsage (scripted account_refused) config start))
              (Error "Request failed with status code 401")))))).
  run.
Defined.

(** The provider's GraphQL endpoints are down, its REST endpoints
    answer: the report comes with 0 watts. *)
Lemma report_survives_live_usage_failure_witness :
  exists rest,
    generateStatusMessage (scripted offline) config start
    = (Return
         ("🔌 *Octopus Energy Status*" ++ newline ++ newline
          ++ "*Current Usage:* 0W" ++ rest),
       with_world
         {| world := tt;
            console :=
              [ (Stdout, "📊 Fetching live usage data...");
                (Stdout, "🔑 Obtaining Kraken token...");
                (Stderr, "❌ Error obtaining Kraken token: Network Error");
                (Stderr, "❌ Error fetching live usage: Network Error") ] |}
         tt).
Proof.
  eapply (report_survives_live_usage_failure (scripted offline) config start
            _ _ _
            {| world := tt;
               console :=
                 [ (Stdout, "📊 Fetching live usage data...");
                   (Stdout, "🔑 Obtaining Kraken token...");
                   (Stderr,
                    "❌ Error obtaining Kraken token: Network Error");
                   (Stderr, "❌ Error fetching live usage: Network Error") ]
            |}
            network_fault _ _ _ _ tt).
  - run.
  - run.
  - run.
  - run.
  - reflexivity.
Defined.

(** The command of the example is answered with the report of the
    scenario, the button under it with an edit of that message. *)
Example on_start_scenario :
  outbox (snd (on_start (scripted scenario) config start_command idle))
  = [ sendMessage 424242
        (status_text 350
           {| usage := 8.2; cost := 8.2 * 0.2712 |}
           {| usage := 210.5; cost := 210.5 * 0.2712 |}
           {| name := "Flexible Octopus"; unit_rate := "0.2712";
              standing_charge := "0.49" |}
           "2025-11-03 02:30:00 UTC")
        {| parse_mode := "Markdown"; reply_markup := keyboard |} ]%float
  /\ List.hd_error
       (console
          (process (snd (on_start (scripted scenario) config start_command
                           idle))))
     = Some (Stdout, "Received /start command from chat 424242").
Proof. split; run. Qed.

Example on_callback_query_refresh_refused :
  on_callback_query (scripted account_refused) config refresh_press idle
  = (Return tt,
     {| process :=
          snd (generateStatusMessage (scripted account_refused) config
                 (with_line start
                    (Stdout, "Received refresh request from chat 424242")));
        outbox :=
          [ editMessageText "❌ Error fetching data. Please try again later."
              {| edit_chat_id := 424242; edit_message_id := 18;
                 edit_parse_mode := "Markdown";
                 edit_reply_markup := keyboard |} ] |}).
Proof. run. Qed.

(** A longer word that contains the command triggers the handler as
    well. *)
Lemma on_text_matches_witness :
  on_text (scripted scenario) config
    {| chat := {| chat_id := 424242 |}; message_id := 19;
       message_text := Some "I /started it" |} idle
  = on_start (scripted scenario) config
      {| chat := {| chat_id := 424242 |}; message_id := 19;
         message_text := Some "I /started it" |} idle.
Proof.
  exact (proj1 (on_text_matches (scripted scenario) config
                  {| chat := {| chat_id := 424242 |}; message_id := 19;
                     message_text := Some "I /started it" |} idle)
           "I " "ed it" eq_refl).
Defined.

Lemma getLiveUsageGraphQL_returns_witness :
  getLiveUsageGraphQL config live_350 start = (Return (JNum 350%float), start).
Proof.
  apply (proj2 (getLiveUsageGraphQL_returns config live_350 start start
                  (JNum 350%float))).
  eexists. eexists. eexists. eexists.
  split; [reflexivity|]. split; [reflexivity|]. split; [reflexivity|].
  split; reflexivity.
Defined.
